(** * The product-scraper request handler of [src/server.ts]

    A shallow embedding of the [POST /api/product-scraper] handler.  The
    handler is one [try]/[catch] around a sequence of awaited collaborator
    calls; it is modelled in a small trace-and-exception monad, with the
    collaborators imported from [./lib/functions] and from the [ai] package
    taken as the fields of a [World]. *)

From Stdlib Require Import String Ascii List ZArith Bool Arith Lia DecimalString.
Import ListNotations.
Open Scope string_scope.
Open Scope list_scope.
Set Warnings "-register-all".

(** ** JavaScript values *)

Module Js.

(** The values the handler inspects dynamically.  Numbers are the integers a
    JSON body carries exactly. *)
Inductive value : Type :=
| VUndefined
| VNull
| VBool (b : bool)
| VNum (n : Z)
| VStr (s : string)
| VArr (items : list value)
| VObj (fields : list (string * value)).

(** A plain object: its own properties in insertion order. *)
Definition object : Type := list (string * value).

(** [!v] is [negb (truthy v)]. *)
Definition truthy (v : value) : bool :=
  match v with
  | VUndefined | VNull => false
  | VBool b => b
  | VNum n => negb (n =? 0)%Z
  | VStr s => negb (s =? "")
  | VArr _ | VObj _ => true
  end.

(** [typeof v === "string"]. *)
Definition typeof_string (v : value) : bool :=
  match v with VStr _ => true | _ => false end.

(** [v.length], read by the handler only behind a [typeof] test. *)
Definition str_length (v : value) : nat :=
  match v with VStr s => String.length s | _ => 0 end.

(** [o.k]: the property, or [undefined] when [o] has no such property. *)
Fixpoint get (k : string) (o : object) : value :=
  match o with
  | [] => VUndefined
  | (k', v) :: rest => if k' =? k then v else get k rest
  end.

(** [o.k = v]: an existing property keeps its place, a new one goes last. *)
Fixpoint set (k : string) (v : value) (o : object) : object :=
  match o with
  | [] => [(k, v)]
  | (k', v') :: rest =>
      if k' =? k then (k', v) :: rest else (k', v') :: set k v rest
  end.

(** [v.k] on a value that is known not to be nullish. *)
Definition prop (k : string) (v : value) : value :=
  match v with VObj o => get k o | _ => VUndefined end.

(** [v?.k]: [undefined] on [null] and [undefined], the property otherwise. *)
Definition opt_prop (k : string) (v : value) : value :=
  match v with
  | VUndefined | VNull => VUndefined
  | _ => prop k v
  end.

(** [arr.slice(lo, hi)] for non-negative indices. *)
Definition slice {A : Type} (lo hi : nat) (l : list A) : list A :=
  firstn (hi - lo) (skipn lo l).

Definition comma : string := ",".

(** [String(v)], with decimal rendering of the integers. *)
Fixpoint to_string (v : value) : string :=
  match v with
  | VUndefined => "undefined"
  | VNull => "null"
  | VBool true => "true"
  | VBool false => "false"
  | VNum n => NilZero.string_of_int (Z.to_int n)
  | VStr s => s
  | VArr items =>
      (fix elems (l : list value) : string :=
         match l with
         | [] => ""
         | [x] => match x with VUndefined | VNull => "" | _ => to_string x end
         | x :: rest =>
             ((match x with VUndefined | VNull => "" | _ => to_string x end)
                ++ comma ++ elems rest)%string
         end) items
  | VObj _ => "[object Object]"
  end.

(** The text one element contributes to [join]: nothing for a nullish one. *)
Definition join_piece (v : value) : string :=
  match v with VUndefined | VNull => "" | _ => to_string v end.

(** [arr.join(sep)]. *)
Fixpoint join (sep : string) (l : list value) : string :=
  match l with
  | [] => ""
  | [x] => join_piece x
  | x :: rest => (join_piece x ++ sep ++ join sep rest)%string
  end.

End Js.

Import Js.

(** ** Exceptions and promises *)

(** What a [catch] clause can receive: an [Error] instance with its message,
    or any other thrown value. *)
Inductive exn : Type :=
| ErrorObj (message : string)
| Thrown (v : value).

(** How an asynchronous call settles. *)
Inductive Outcome (A : Type) : Type :=
| Returned (a : A)
| Rejected (e : exn).
Arguments Returned {A} a.
Arguments Rejected {A} e.

(** A promise is identified with the outcome it settles to. *)
Definition Promise (A : Type) : Type := Outcome A.

Definition is_rejected {A : Type} (p : Promise A) : option exn :=
  match p with Rejected e => Some e | Returned _ => None end.

(** The values of the promises that fulfilled, in array order. *)
Fixpoint fulfilled {A : Type} (ps : list (Promise A)) : list A :=
  match ps with
  | [] => []
  | Returned a :: rest => a :: fulfilled rest
  | Rejected _ :: rest => fulfilled rest
  end.

(** The order in which [n] concurrently started promises settle: the indices
    a scheduler lists settle first, in the listed order, the others after
    them in array order. *)
Definition settle_order (sched : list nat) (n : nat) : list nat :=
  (filter (fun i => (i <? n)%nat) sched ++ seq 0 n)%list.

(** The reason of the first promise to settle as rejected. *)
Fixpoint first_rejection {A : Type} (ps : list (Promise A)) (order : list nat)
  : option exn :=
  match order with
  | [] => None
  | i :: rest =>
      match nth_error ps i with
      | Some (Rejected e) => Some e
      | _ => first_rejection ps rest
      end
  end.

(** [Promise.all(ps)]: rejects with the first rejection to occur, and
    otherwise fulfils with all the values in array order. *)
Definition promise_all {A : Type} (sched : list nat) (ps : list (Promise A))
  : Promise (list A) :=
  match first_rejection ps (settle_order sched (length ps)) with
  | Some e => Rejected e
  | None => Returned (fulfilled ps)
  end.

(** ** Data passed between the stages *)

(** One entry of [searchResults.searchResults]. *)
Record SearchResult : Type := mkSearchResult {
  sr_url : string;
  sr_title : string
}.

(** What [searchGoogle] resolves to. *)
Record SearchResponse : Type := mkSearchResponse {
  searchResults : list SearchResult
}.

(** One entry of [contents]. *)
Record SourceDocument : Type := mkSourceDocument {
  doc_url : string;
  content : string
}.

(** What [scrapeSearchResults] resolves to. *)
Record ScrapedBatch : Type := mkScrapedBatch {
  contents : list SourceDocument;
  images : list value
}.

(** The client built once at start-up from [process.env.OPENAI_API_KEY]. *)
Record OpenAI : Type := mkOpenAI {
  apiKey : value
}.

(** A shape descriptor handed to [generateObject]. *)
Inductive Schema : Type :=
| SAny
| SDefined
| SString
| SArray (item : Schema)
| SObject (props : list (string * Schema)).

(** The argument of [generateObject]. *)
Record GenerateArgs : Type := mkGenerateArgs {
  model : string;
  schema : Schema;
  prompt : string
}.

(** What [generateObject] resolves to; the handler destructures [object]. *)
Record GenerateResult : Type := mkGenerateResult {
  gen_object : object
}.

(** ** The collaborators *)

(** The functions the handler imports, as one request sees them: each call
    settles to an outcome that depends on its arguments only. *)
Record World : Type := mkWorld {
  OPENAI_API_KEY : value;
  ProductSchema : Schema;
  scrapeUrl : value -> Outcome value;
  cleanContent : value -> Outcome value;
  getProductName : value -> Outcome string;
  searchGoogle : string -> Outcome SearchResponse;
  scrapeSearchResults : list SearchResult -> string -> Outcome ScrapedBatch;
  selectBestImageWithVision : list value -> string -> OpenAI -> Outcome value;
  summarizeContent : string -> Outcome value;
  generateObject : GenerateArgs -> Outcome GenerateResult
}.

Definition openaiReal (W : World) : OpenAI :=
  {| apiKey := OPENAI_API_KEY W |}.

(** ** Observable events *)

Inductive Call : Type :=
| CallScrapeUrl (url : value)
| CallCleanContent (raw : value)
| CallGetProductName (cleaned : value)
| CallSearchGoogle (query : string)
| CallScrapeSearchResults (results : list SearchResult) (productName : string)
| CallSelectBestImage (imgs : list value) (productName : string) (client : OpenAI)
| CallSummarizeContent (text : string)
| CallGenerateObject (args : GenerateArgs).

Record HttpResponse : Type := mkHttpResponse {
  status : nat;
  json : value
}.

Inductive Event : Type :=
| EvCall (c : Call)
| EvSend (r : HttpResponse)
| EvConsoleLog (label : string) (v : value)
| EvConsoleError (label : string) (e : exn).

Definition Trace : Type := list Event.

(** ** The handler monad: a trace of events, and exceptions *)

Definition M (A : Type) : Type := Trace -> Outcome A * Trace.

Definition ret {A : Type} (a : A) : M A := fun t => (Returned a, t).

Definition throw {A : Type} (e : exn) : M A := fun t => (Rejected e, t).

Definition bind {A B : Type} (m : M A) (f : A -> M B) : M B :=
  fun t =>
    match m t with
    | (Returned a, t') => f a t'
    | (Rejected e, t') => (Rejected e, t')
    end.

Notation "x <- m ;; k" := (bind m (fun x => k))
  (at level 61, m at next level, right associativity).
Notation "m ;; k" := (bind m (fun _ => k))
  (at level 61, right associativity).

(** [try { body } catch (error) { handler error }]. *)
Definition try_catch {A : Type} (body : M A) (handler : exn -> M A) : M A :=
  fun t =>
    match body t with
    | (Returned a, t') => (Returned a, t')
    | (Rejected e, t') => handler e t'
    end.

Definition emit (ev : Event) : M unit := fun t => (Returned tt, (t ++ [ev])%list).

(** Calling a collaborator starts it and yields its promise. *)
Definition invoke {A : Type} (c : Call) (p : Promise A) : M (Promise A) :=
  emit (EvCall c) ;; ret p.

(** [await p]: the value, or the rejection thrown. *)
Definition await {A : Type} (p : Promise A) : M A := fun t => (p, t).

(** [await f(args)]. *)
Definition call {A : Type} (c : Call) (p : Promise A) : M A :=
  pr <- invoke c p ;; await pr.

(** [xs.map(f)] for an [f] that has effects. *)
Fixpoint map_m {A B : Type} (f : A -> M B) (xs : list A) : M (list B) :=
  match xs with
  | [] => ret []
  | x :: rest => y <- f x ;; ys <- map_m f rest ;; ret (y :: ys)
  end.

(** [res.status(code).json(body)]. *)
Definition res_status_json (code : nat) (body : value) : M unit :=
  emit (EvSend {| status := code; json := body |}).

(** [res.json(body)]. *)
Definition res_json (body : value) : M unit := res_status_json 200 body.

Definition console_log (label : string) (v : value) : M unit :=
  emit (EvConsoleLog label v).

Definition console_error (label : string) (e : exn) : M unit :=
  emit (EvConsoleError label e).

(** ** The handler *)

(** The request as the handler reads it: [express.json()] has parsed the body
    into an object. *)
Record Request : Type := mkRequest {
  body : object
}.

Definition nl : string := String "010"%char EmptyString.

(** The separator ["\n\n"]. *)
Definition blank_line : string := (nl ++ nl)%string.

(** [(summary) => typeof summary === "string" && summary.length > 0]. *)
Definition is_summary (summary : value) : bool :=
  typeof_string summary && (0 <? str_length summary)%nat.

(** [summarizedContents.filter(...).join("\n\n")]. *)
Definition combinedDetails (summarizedContents : list value) : string :=
  join blank_line (filter is_summary summarizedContents).

Definition prompt_head : string := "
        Generate comprehensive product information for ".

Definition prompt_middle : string := ".
        Use this summarized content and specifications from multiple sources:

        Content:
        ".

Definition prompt_tail : string := "

        Generate a detailed response including:
        1. Product name and description.(Description should be a detailed description of the product)
        2. Ratings and reviews. (Should be related to the product)
        3. Where to buy information. (Include the retailer, country, price and url)
        4. Technical specifications as an array of label-value pairs
        5. Frequently asked questions. (Should be technical questions or related to the product specifications)

        Important: Format specifications as an array of objects with label and value properties.
        Ensure all specifications are included and all information is factual.
      ".

(** The template literal given as [prompt]. *)
Definition prompt_template (productName details : string) : string :=
  (prompt_head ++ productName ++ prompt_middle ++ details ++ prompt_tail)%string.

(** The argument object of the [generateObject] call. *)
Definition generate_args (W : World) (productName details : string)
  : GenerateArgs :=
  {| model := "gpt-4o-mini";
     schema := ProductSchema W;
     prompt := prompt_template productName details |}.

(** [error instanceof Error ? error.message : "Unknown error"]. *)
Definition error_details (error : exn) : string :=
  match error with
  | ErrorObj message => message
  | Thrown _ => "Unknown error"
  end.

Definition url_required : value :=
  VObj [("error", VStr "URL is required")].

Definition failure_body (error : exn) : value :=
  VObj [("error", VStr "Failed to scrape product information");
        ("details", VStr (error_details error))].

(** The body of [app.post("/api/product-scraper", async (req, res) => ...)].
    [sched] is the order in which the summarization promises settle. *)
Definition handler (W : World) (sched : list nat) (req : Request) : M unit :=
  try_catch
    (let url := get "url" (body req) in
     if negb (truthy url) then
       res_status_json 400 url_required
     else
       initialContent <- call (CallScrapeUrl url) (scrapeUrl W url) ;;
       if negb (truthy (opt_prop "content" initialContent)) then
         throw (ErrorObj "Failed to scrape initial URL")
       else
         let raw := prop "content" initialContent in
         cleanedContent <- call (CallCleanContent raw) (cleanContent W raw) ;;
         productName <- call (CallGetProductName cleanedContent)
                             (getProductName W cleanedContent) ;;
         found <- call (CallSearchGoogle productName)
                       (searchGoogle W productName) ;;
         let limitedResults := slice 0 7 (searchResults found) in
         batch <- call (CallScrapeSearchResults limitedResults productName)
                       (scrapeSearchResults W limitedResults productName) ;;
         bestImage <- call (CallSelectBestImage (images batch) productName
                                                (openaiReal W))
                           (selectBestImageWithVision W (images batch)
                                                      productName
                                                      (openaiReal W)) ;;
         promises <- map_m (fun result =>
                              invoke (CallSummarizeContent (content result))
                                     (summarizeContent W (content result)))
                           (contents batch) ;;
         summarizedContents <- await (promise_all sched promises) ;;
         let details := combinedDetails summarizedContents in
         generated <- call (CallGenerateObject
                              (generate_args W productName details))
                           (generateObject W
                              (generate_args W productName details)) ;;
         let record := set "image" bestImage (gen_object generated) in
         console_log "object" (VObj record) ;;
         res_json (VObj record))
    (fun error =>
       console_error "Error in product scraper:" error ;;
       res_status_json 500 (failure_body error)).

(** One request, from an empty trace. *)
Definition run (W : World) (sched : list nat) (req : Request) : Trace :=
  snd (handler W sched req []).

(** ** Reading a trace *)

Fixpoint calls (t : Trace) : list Call :=
  match t with
  | [] => []
  | EvCall c :: rest => c :: calls rest
  | _ :: rest => calls rest
  end.

Fixpoint responses (t : Trace) : list HttpResponse :=
  match t with
  | [] => []
  | EvSend r :: rest => r :: responses rest
  | _ :: rest => responses rest
  end.

Definition is_generate (c : Call) : bool :=
  match c with CallGenerateObject _ => true | _ => false end.

Definition is_summarize (c : Call) : bool :=
  match c with CallSummarizeContent _ => true | _ => false end.

Definition is_select (c : Call) : bool :=
  match c with CallSelectBestImage _ _ _ => true | _ => false end.

Definition is_scrape_batch (c : Call) : bool :=
  match c with CallScrapeSearchResults _ _ => true | _ => false end.

(** The record a trace delivered with status 200, if that is all it sent. *)
Definition delivered (t : Trace) : option object :=
  match responses t with
  | [ {| status := 200; json := VObj record |} ] => Some record
  | _ => None
  end.

(** ** Stages of one request *)

(** The values one request passes from stage to stage. *)
Record Stages : Type := mkStages {
  st_url : value;
  st_initial : value;
  st_cleaned : value;
  st_name : string;
  st_found : SearchResponse;
  st_batch : ScrapedBatch;
  st_image : value
}.

Definition st_limited (s : Stages) : list SearchResult :=
  firstn 7 (searchResults (st_found s)).

(** The request carries a usable [url] and extraction, cleaning and
    identification return. *)
Definition identified (W : World) (req : Request) (s : Stages) : Prop :=
  get "url" (body req) = st_url s /\
  truthy (st_url s) = true /\
  scrapeUrl W (st_url s) = Returned (st_initial s) /\
  truthy (opt_prop "content" (st_initial s)) = true /\
  cleanContent W (prop "content" (st_initial s)) = Returned (st_cleaned s) /\
  getProductName W (st_cleaned s) = Returned (st_name s).

(** ... and the search provider returns. *)
Definition searched (W : World) (req : Request) (s : Stages) : Prop :=
  identified W req s /\
  searchGoogle W (st_name s) = Returned (st_found s).

(** ... and the scrape fan-out returns its batch. *)
Definition scraped (W : World) (req : Request) (s : Stages) : Prop :=
  searched W req s /\
  scrapeSearchResults W (st_limited s) (st_name s) = Returned (st_batch s).

(** ... and image selection returns: the request is at the summarization
    stage. *)
Definition selected (W : World) (req : Request) (s : Stages) : Prop :=
  scraped W req s /\
  selectBestImageWithVision W (images (st_batch s)) (st_name s) (openaiReal W)
  = Returned (st_image s).

(** The promises the summarization fan-out creates, in the order of
    [contents]. *)
Definition summary_promises (W : World) (s : Stages) : list (Promise value) :=
  map (fun d => summarizeContent W (content d)) (contents (st_batch s)).

(** The events up to and including the search. *)
Definition trace_searched (s : Stages) : Trace :=
  [EvCall (CallScrapeUrl (st_url s));
   EvCall (CallCleanContent (prop "content" (st_initial s)));
   EvCall (CallGetProductName (st_cleaned s));
   EvCall (CallSearchGoogle (st_name s))].

(** The events up to and including the summarization calls. *)
Definition trace_summarized (W : World) (s : Stages) : Trace :=
  (trace_searched s
   ++ [EvCall (CallScrapeSearchResults (st_limited s) (st_name s));
       EvCall (CallSelectBestImage (images (st_batch s)) (st_name s)
                                   (openaiReal W))]
   ++ map (fun d => EvCall (CallSummarizeContent (content d)))
          (contents (st_batch s)))%list.

(** What the [catch] block adds to a trace. *)
Definition caught (error : exn) : Trace :=
  [EvConsoleError "Error in product scraper:" error;
   EvSend {| status := 500; json := failure_body error |}].

(** What a request at the summarization stage goes on to do. *)
Definition conclude (W : World) (sched : list nat) (s : Stages) : Trace :=
  match promise_all sched (summary_promises W s) with
  | Rejected e => caught e
  | Returned summaries =>
      let args := generate_args W (st_name s) (combinedDetails summaries) in
      EvCall (CallGenerateObject args) ::
      match generateObject W args with
      | Rejected e => caught e
      | Returned g =>
          let record := set "image" (st_image s) (gen_object g) in
          [EvConsoleLog "object" (VObj record);
           EvSend {| status := 200; json := VObj record |}]
      end
  end.

Definition with_st_image (s : Stages) (img : value) : Stages :=
  {| st_url := st_url s; st_initial := st_initial s;
     st_cleaned := st_cleaned s; st_name := st_name s;
     st_found := st_found s; st_batch := st_batch s; st_image := img |}.

Definition with_st_batch (s : Stages) (b : ScrapedBatch) : Stages :=
  {| st_url := st_url s; st_initial := st_initial s;
     st_cleaned := st_cleaned s; st_name := st_name s;
     st_found := st_found s; st_batch := b; st_image := st_image s |}.

(** Two worlds whose collaborators agree up to the search. *)
Definition same_upstream (W W' : World) : Prop :=
  scrapeUrl W' = scrapeUrl W /\
  cleanContent W' = cleanContent W /\
  getProductName W' = getProductName W /\
  searchGoogle W' = searchGoogle W.


(** ** The synthesis context in the words of the specification *)

(** A summarization result survives when it is a non-empty string. *)
Definition surviving (v : value) : option string :=
  match v with
  | VStr s => if s =? "" then None else Some s
  | _ => None
  end.

Fixpoint surviving_summaries (results : list value) : list string :=
  match results with
  | [] => []
  | v :: rest =>
      match surviving v with
      | Some s => s :: surviving_summaries rest
      | None => surviving_summaries rest
      end
  end.

(** The survivors, in order, with a blank line between neighbours. *)
Definition synthesis_context (results : list value) : string :=
  String.concat blank_line (surviving_summaries results).

(** ** Worlds that differ in one collaborator *)

Definition with_selector (W : World)
           (sel : list value -> string -> OpenAI -> Outcome value) : World :=
  {| OPENAI_API_KEY := OPENAI_API_KEY W;
     ProductSchema := ProductSchema W;
     scrapeUrl := scrapeUrl W;
     cleanContent := cleanContent W;
     getProductName := getProductName W;
     searchGoogle := searchGoogle W;
     scrapeSearchResults := scrapeSearchResults W;
     selectBestImageWithVision := sel;
     summarizeContent := summarizeContent W;
     generateObject := generateObject W |}.

(** The world in which image selection answers [img]. *)
Definition choosing (W : World) (img : value) : World :=
  with_selector W (fun _ _ _ => Returned img).

Definition with_summarizer (W : World) (summ : string -> Outcome value)
  : World :=
  {| OPENAI_API_KEY := OPENAI_API_KEY W;
     ProductSchema := ProductSchema W;
     scrapeUrl := scrapeUrl W;
     cleanContent := cleanContent W;
     getProductName := getProductName W;
     searchGoogle := searchGoogle W;
     scrapeSearchResults := scrapeSearchResults W;
     selectBestImageWithVision := selectBestImageWithVision W;
     summarizeContent := summ;
     generateObject := generateObject W |}.

Definition with_batch_scraper (W : World)
           (scr : list SearchResult -> string -> Outcome ScrapedBatch)
  : World :=
  {| OPENAI_API_KEY := OPENAI_API_KEY W;
     ProductSchema := ProductSchema W;
     scrapeUrl := scrapeUrl W;
     cleanContent := cleanContent W;
     getProductName := getProductName W;
     searchGoogle := searchGoogle W;
     scrapeSearchResults := scr;
     selectBestImageWithVision := selectBestImageWithVision W;
     summarizeContent := summarizeContent W;
     generateObject := generateObject W |}.

Definition with_generator (W : World)
           (gen : GenerateArgs -> Outcome GenerateResult) : World :=
  {| OPENAI_API_KEY := OPENAI_API_KEY W;
     ProductSchema := ProductSchema W;
     scrapeUrl := scrapeUrl W;
     cleanContent := cleanContent W;
     getProductName := getProductName W;
     searchGoogle := searchGoogle W;
     scrapeSearchResults := scrapeSearchResults W;
     selectBestImageWithVision := selectBestImageWithVision W;
     summarizeContent := summarizeContent W;
     generateObject := gen |}.

Definition with_extractor (W : World) (ext : value -> Outcome value) : World :=
  {| OPENAI_API_KEY := OPENAI_API_KEY W;
     ProductSchema := ProductSchema W;
     scrapeUrl := ext;
     cleanContent := cleanContent W;
     getProductName := getProductName W;
     searchGoogle := searchGoogle W;
     scrapeSearchResults := scrapeSearchResults W;
     selectBestImageWithVision := selectBestImageWithVision W;
     summarizeContent := summarizeContent W;
     generateObject := generateObject W |}.

(** ** The scrape fan-out *)

(** What scraping one search result yields. *)
Record ScrapedPage : Type := mkScrapedPage {
  page_content : string;
  page_images : list value
}.

(** Modelled from the spec: the body of [scrapeSearchResults], which lives in
    [lib/functions].  Section 4.1, step 5: every retained result is scraped
    with the product name as a hint; the contents of the results that scraped
    and all the images found on them are collected in result order, and a
    result that fails to scrape contributes nothing. *)
Fixpoint collect_batch (scrape : string -> string -> Outcome ScrapedPage)
         (results : list SearchResult) (productName : string) : ScrapedBatch :=
  match results with
  | [] => {| contents := []; images := [] |}
  | r :: rest =>
      let b := collect_batch scrape rest productName in
      match scrape (sr_url r) productName with
      | Returned page =>
          {| contents := {| doc_url := sr_url r;
                            content := page_content page |} :: contents b;
             images := page_images page ++ images b |}
      | Rejected _ => b
      end
  end.

(** ** The record schema *)

Definition defined (v : value) : bool :=
  match v with VUndefined => false | _ => true end.

(** Whether a value has the shape a schema describes; an object may carry
    further properties. *)
Fixpoint conforms (sch : Schema) (v : value) {struct sch} : bool :=
  match sch with
  | SAny => true
  | SDefined => defined v
  | SString => typeof_string v
  | SArray item =>
      match v with
      | VArr items => forallb (conforms item) items
      | _ => false
      end
  | SObject props =>
      match v with
      | VObj fields =>
          (fix each (ps : list (string * Schema)) : bool :=
             match ps with
             | [] => true
             | (k, sk) :: rest => conforms sk (get k fields) && each rest
             end) props
      | _ => false
      end
  end.

(** Modelled from the spec: the constant [ProductSchema] of [lib/functions].
    Section 3, ProductRecord: name and description are strings; where-to-buy
    entries carry retailer, country, price and url; specifications is a list
    of label and value pairs; faq is a list of question and answer pairs.
    The shapes of ratings, reviews and image are left open there. *)
Definition ProductRecordSchema : Schema :=
  SObject
    [("name", SString);
     ("description", SString);
     ("ratings", SAny);
     ("reviews", SAny);
     ("whereToBuy",
      SArray (SObject [("retailer", SDefined); ("country", SDefined);
                       ("price", SDefined); ("url", SDefined)]));
     ("specifications",
      SArray (SObject [("label", SDefined); ("value", SDefined)]));
     ("faq", SArray (SObject [("question", SDefined); ("answer", SDefined)]));
     ("image", SAny)].

(** Modelled from the spec: the contract of [generateObject], section 4.1,
    step 9 and section 9: what it returns conforms to the schema it was
    given. *)
Definition honours_schema (W : World) : Prop :=
  forall args g,
    generateObject W args = Returned g ->
    conforms (schema args) (VObj (gen_object g)) = true.

(** An object with a [label] and a [value]. *)
Definition label_value_pair (v : value) : Prop :=
  exists o, v = VObj o /\ get "label" o <> VUndefined
            /\ get "value" o <> VUndefined.

(** A synthesizer whose model answers [o]: the answer is returned when it has
    the requested shape and the call rejects otherwise. *)
Definition validated (o : object) (args : GenerateArgs)
  : Outcome GenerateResult :=
  if conforms (schema args) (VObj o)
  then Returned {| gen_object := o |}
  else Rejected (ErrorObj "No object generated: response did not match schema.").

(** ** Fatal failures *)

(** Extraction, identification or synthesis fails with [e], the calls made
    up to and including the failing one being [made]: the extractor rejects
    or returns nothing usable, the identifier rejects, or the synthesizer
    rejects once every earlier stage has gone through. *)
Inductive fatal_failure (W : World) (sched : list nat) (req : Request)
  : exn -> list Call -> Prop :=
| extraction_rejected (e : exn) :
    truthy (get "url" (body req)) = true ->
    scrapeUrl W (get "url" (body req)) = Rejected e ->
    fatal_failure W sched req e [CallScrapeUrl (get "url" (body req))]
| extraction_unusable (initial : value) :
    truthy (get "url" (body req)) = true ->
    scrapeUrl W (get "url" (body req)) = Returned initial ->
    truthy (opt_prop "content" initial) = false ->
    fatal_failure W sched req (ErrorObj "Failed to scrape initial URL")
                  [CallScrapeUrl (get "url" (body req))]
| identification_rejected (initial cleaned : value) (e : exn) :
    truthy (get "url" (body req)) = true ->
    scrapeUrl W (get "url" (body req)) = Returned initial ->
    truthy (opt_prop "content" initial) = true ->
    cleanContent W (prop "content" initial) = Returned cleaned ->
    getProductName W cleaned = Rejected e ->
    fatal_failure W sched req e
                  [CallScrapeUrl (get "url" (body req));
                   CallCleanContent (prop "content" initial);
                   CallGetProductName cleaned]
| synthesis_rejected (s : Stages) (summaries : list value) (e : exn) :
    selected W req s ->
    promise_all sched (summary_promises W s) = Returned summaries ->
    generateObject W (generate_args W (st_name s) (combinedDetails summaries))
    = Rejected e ->
    fatal_failure W sched req e
      ([CallScrapeUrl (st_url s);
        CallCleanContent (prop "content" (st_initial s));
        CallGetProductName (st_cleaned s);
        CallSearchGoogle (st_name s);
        CallScrapeSearchResults (st_limited s) (st_name s);
        CallSelectBestImage (images (st_batch s)) (st_name s) (openaiReal W)]
       ++ map (fun d => CallSummarizeContent (content d))
              (contents (st_batch s))
       ++ [CallGenerateObject
             (generate_args W (st_name s) (combinedDetails summaries))]).

(** The message a thrown value carries: that of an [Error], or the
    [message] property of another object. *)
Definition underlying_message (e : exn) : option string :=
  match e with
  | ErrorObj message => Some message
  | Thrown v =>
      match prop "message" v with
      | VStr message => Some message
      | _ => None
      end
  end.

(** ** Two readings that the handler does not bear out *)

(** A summarization call fails when it rejects or when what it returns is
    not a non-empty string. *)
Definition summarizer_failed (p : Promise value) : Prop :=
  match p with
  | Rejected _ => True
  | Returned v => is_summary v = false
  end.

(** Every failing summarization is absorbed: synthesis is still called. *)
Definition summarizer_failures_never_escalate : Prop :=
  forall W sched req s,
    selected W req s ->
    Exists summarizer_failed (summary_promises W s) ->
    exists args, In (CallGenerateObject args) (calls (run W sched req)).

(** A fatal failure is reported with the message its error carries. *)
Definition fatal_failure_reports_message : Prop :=
  forall W sched req e made message,
    fatal_failure W sched req e made ->
    underlying_message e = Some message ->
    responses (run W sched req)
    = [{| status := 500;
          json := VObj [("error", VStr "Failed to scrape product information");
                        ("details", VStr message)] |}].

(** ** The image selector *)

(** Modelled from the spec: the contract of [selectBestImageWithVision],
    which lives in [lib/functions].  Section 4.1, step 6 and section 6:
    image selection answers with an image or with none; finding nothing
    suitable is not an error. *)
Definition selector_returns (W : World) : Prop :=
  forall imgs productName client,
    exists img,
      selectBestImageWithVision W imgs productName client = Returned img.

(** ** A worked request *)

Definition digit (n : nat) : string :=
  String (ascii_of_nat (48 + n)) EmptyString.

Definition result_page (n : nat) : SearchResult :=
  {| sr_url := ("https://shop.example/" ++ digit n)%string;
     sr_title := "Widget X" |}.

(** The search provider finds ten pages. *)
Definition ten_results : list SearchResult := map result_page (seq 0 10).

(** Pages 2 and 5 do not scrape; the others carry one image each. *)
Definition widget_scrape (url hint : string) : Outcome ScrapedPage :=
  if (url =? "https://shop.example/2") || (url =? "https://shop.example/5")
  then Rejected (ErrorObj "navigation timeout")
  else Returned {| page_content := ("page " ++ url)%string;
                   page_images := [VStr (url ++ "/front.png")%string] |}.

(** Page 1 summarizes to nothing and page 4 to [null]. *)
Definition widget_summarize (text : string) : Outcome value :=
  if text =? "page https://shop.example/1" then Returned (VStr "")
  else if text =? "page https://shop.example/4" then Returned VNull
  else Returned (VStr ("About " ++ text)%string).

Definition widget_record : object :=
  [("name", VStr "Widget X");
   ("description", VStr "A widget.");
   ("whereToBuy", VArr []);
   ("specifications",
    VArr [VObj [("label", VStr "Weight"); ("value", VStr "1 kg")]]);
   ("faq", VArr []);
   ("image", VStr "https://cdn.example/made-up.png")].

Definition widget_world : World :=
  {| OPENAI_API_KEY := VStr "sk-test";
     ProductSchema := ProductRecordSchema;
     scrapeUrl := fun url =>
       Returned (VObj [("url", url); ("content", VStr "Widget X details...")]);
     cleanContent := fun raw => Returned raw;
     getProductName := fun _ => Returned "Widget X";
     searchGoogle := fun _ => Returned {| searchResults := ten_results |};
     scrapeSearchResults := fun results name =>
       Returned (collect_batch widget_scrape results name);
     selectBestImageWithVision := fun imgs _ _ =>
       Returned (match imgs with [] => VNull | img :: _ => img end);
     summarizeContent := widget_summarize;
     generateObject := validated widget_record |}.

Definition widget_request : Request :=
  {| body := [("url", VStr "https://example.com/prod1")] |}.

Definition widget_stages : Stages :=
  {| st_url := VStr "https://example.com/prod1";
     st_initial := VObj [("url", VStr "https://example.com/prod1");
                         ("content", VStr "Widget X details...")];
     st_cleaned := VStr "Widget X details...";
     st_name := "Widget X";
     st_found := {| searchResults := ten_results |};
     st_batch := collect_batch widget_scrape (firstn 7 ten_results) "Widget X";
     st_image := VStr "https://shop.example/0/front.png" |}.

(** The summaries of the five pages that scraped, in scrape order. *)
Definition widget_summaries : list value :=
  [VStr "About page https://shop.example/0";
   VStr "";
   VStr "About page https://shop.example/3";
   VNull;
   VStr "About page https://shop.example/6"].

(** The same request when the summarizer rejects for page 3. *)
Definition summarizer_down : World :=
  with_summarizer widget_world
    (fun text =>
       if text =? "page https://shop.example/3"
       then Rejected (ErrorObj "summarizer unavailable")
       else widget_summarize text).

(** The same request when no page scrapes and the image selector rejects an
    empty candidate list. *)
Definition nothing_scraped : World :=
  with_selector
    (with_batch_scraper widget_world
       (fun results name =>
          Returned (collect_batch
                      (fun _ _ => Rejected (ErrorObj "navigation timeout"))
                      results name)))
    (fun imgs _ _ =>
       match imgs with
       | [] => Rejected (ErrorObj "no candidate images")
       | img :: _ => Returned img
       end).

Definition nothing_scraped_stages : Stages :=
  with_st_batch widget_stages {| contents := []; images := [] |}.

(** The same request when the page cannot be extracted. *)
Definition extraction_down : World :=
  with_extractor widget_world (fun _ => Rejected (ErrorObj "net::ERR_FAILED")).

(** What the synthesizer answers when it has no data. *)
Definition bare_record : object :=
  [("name", VStr "Widget X");
   ("description", VStr "");
   ("whereToBuy", VArr []);
   ("specifications", VArr []);
   ("faq", VArr [])].

Definition bare_world : World :=
  with_generator widget_world (validated bare_record).

(** The same request when two summarizations reject, for different
    reasons. *)
Definition two_summarizers_down : World :=
  with_summarizer widget_world
    (fun text =>
       if text =? "page https://shop.example/0"
       then Rejected (ErrorObj "rate limited")
       else if text =? "page https://shop.example/6"
            then Rejected (ErrorObj "context too long")
            else widget_summarize text).

(** The same request when no page scrapes. *)
Definition no_page_scrapes : World :=
  with_batch_scraper widget_world
    (fun results name =>
       Returned (collect_batch
                   (fun _ _ => Rejected (ErrorObj "navigation timeout"))
                   results name)).

(** The same request when the extractor rejects with an object that is not
    an [Error]. *)
Definition extraction_throws : World :=
  with_extractor widget_world
    (fun _ => Rejected (Thrown (VObj [("message", VStr "quota exceeded")]))).

(** ** Configuration read from the environment *)

(** [process.env]: a variable is a string, or [undefined] when unset. *)
Definition ProcessEnv : Type := string -> option string.

(** A [string | undefined] as a value. *)
Definition of_env (x : option string) : value :=
  match x with
  | Some s => VStr s
  | None => VUndefined
  end.

(** [a === b] on two [string | undefined]. *)
Definition strict_eq (a b : option string) : bool :=
  match a, b with
  | Some x, Some y => x =? y
  | None, None => true
  | _, _ => false
  end.

(** [s.split(sep)] for a separator of one character. *)
Fixpoint split (sep : ascii) (s : string) : list string :=
  match s with
  | EmptyString => [EmptyString]
  | String c rest =>
      if Ascii.eqb c sep then EmptyString :: split sep rest
      else match split sep rest with
           | piece :: more => String c piece :: more
           | [] => [String c EmptyString]
           end
  end.

Record CorsOptions : Type := mkCorsOptions {
  origin : list string;
  methods : list string;
  allowedHeaders : list string;
  credentials : bool;
  optionsSuccessStatus : nat
}.

(** The [corsOptions] constant; an array is truthy, so the fallback [[]] of
    [process.env.ALLOWED_ORIGINS?.split(",") || []] is taken only when the
    variable is unset. *)
Definition corsOptions (env : ProcessEnv) : CorsOptions :=
  {| origin :=
       match option_map (split ","%char) (env "ALLOWED_ORIGINS") with
       | Some listed => listed
       | None => []
       end;
     methods := ["GET"; "POST"];
     allowedHeaders := ["Content-Type"; "Authorization"; "X-API-Key"];
     credentials := true;
     optionsSuccessStatus := 204 |}.

Record RateLimitOptions : Type := mkRateLimitOptions {
  windowMs : nat;
  max : nat
}.

(** The argument of [rateLimit(...)]. *)
Definition limiter_options : RateLimitOptions :=
  {| windowMs := 15 * 60 * 1000; max := 100 |}.

(** ** Middleware *)

(** A request as the middleware stack sees it: [req.get] and what the
    handler reads. *)
Record Incoming : Type := mkIncoming {
  req_get : string -> option string;
  request : Request
}.

(** What a middleware does with a request: it hands it on with [next()], or
    it answers and ends the exchange. *)
Inductive Passage : Type :=
| Next (req : Incoming)
| Responded (r : HttpResponse).

Definition unauthorized : value :=
  VObj [("error", VStr "Unauthorized")].

(** The [authenticateApiKey] middleware. *)
Definition authenticateApiKey (env : ProcessEnv) (req : Incoming) : Passage :=
  let apiKey := req_get req "X-API-Key" in
  if negb (truthy (of_env apiKey)) || negb (strict_eq apiKey (env "API_KEY"))
  then Responded {| status := 401; json := unauthorized |}
  else Next req.

(** A middleware with state of its own kind [S]. *)
Definition Middleware (S : Type) : Type := S -> Incoming -> Passage * S.

(** The middleware the packages [cors], [express], [helmet] and
    [express-rate-limit] provide. *)
Record Library (S : Type) : Type := mkLibrary {
  cors : CorsOptions -> Middleware S;
  express_json : Middleware S;
  helmet : Middleware S;
  rateLimit : RateLimitOptions -> Middleware S
}.
Arguments cors {S} _ _.
Arguments express_json {S} _.
Arguments helmet {S} _.
Arguments rateLimit {S} _ _.

Definition stateless {S : Type} (f : Incoming -> Passage) : Middleware S :=
  fun st req => (f req, st).

(** What a [POST /api/product-scraper] goes through, in the order of the
    [app.use] calls. *)
Definition stack {S : Type} (L : Library S) (env : ProcessEnv)
  : list (Middleware S) :=
  [cors L (corsOptions env);
   express_json L;
   helmet L;
   stateless (authenticateApiKey env);
   rateLimit L limiter_options].

(** A request goes from one middleware to the next until one answers; the
    route handler gets what they all hand on. *)
Fixpoint through {S : Type} (mws : list (Middleware S))
         (route : Incoming -> Trace) (st : S) (req : Incoming) : Trace * S :=
  match mws with
  | [] => (route req, st)
  | mw :: rest =>
      match mw st req with
      | (Next req', st') => through rest route st' req'
      | (Responded r, st') => ([EvSend r], st')
      end
  end.

(** The request and the state a list of middleware hands on, when none of
    them answers. *)
Fixpoint passes {S : Type} (mws : list (Middleware S)) (st : S)
         (req : Incoming) : option (Incoming * S) :=
  match mws with
  | [] => Some (req, st)
  | mw :: rest =>
      match mw st req with
      | (Next req', st') => passes rest st' req'
      | (Responded _, _) => None
      end
  end.

(** One [POST /api/product-scraper]. *)
Definition serve {S : Type} (L : Library S) (env : ProcessEnv) (W : World)
           (sched : list nat) (st : S) (req : Incoming) : Trace * S :=
  through (stack L env) (fun req' => run W sched (request req')) st req.

(** ** Stages that end a request *)

(** Cleaning, the search, the scrape fan-out or image selection rejects
    with [e]. *)
Inductive stage_rejected (W : World) (req : Request) : exn -> Prop :=
| cleaning_rejected (initial : value) (e : exn) :
    truthy (get "url" (body req)) = true ->
    scrapeUrl W (get "url" (body req)) = Returned initial ->
    truthy (opt_prop "content" initial) = true ->
    cleanContent W (prop "content" initial) = Rejected e ->
    stage_rejected W req e
| search_rejected (s : Stages) (e : exn) :
    identified W req s ->
    searchGoogle W (st_name s) = Rejected e ->
    stage_rejected W req e
| scrape_rejected (s : Stages) (e : exn) :
    searched W req s ->
    scrapeSearchResults W (st_limited s) (st_name s) = Rejected e ->
    stage_rejected W req e
| selection_rejected (s : Stages) (e : exn) :
    scraped W req s ->
    selectBestImageWithVision W (images (st_batch s)) (st_name s)
                              (openaiReal W) = Rejected e ->
    stage_rejected W req e.

(** The property names of an object, in order. *)
Definition keys (o : object) : list string := map fst o.

(** The member names of the JSON text of an object: [JSON.stringify] leaves
    out the properties whose value is [undefined]. *)
Definition wire_keys (o : object) : list string :=
  map fst (filter (fun kv => defined (snd kv)) o).

(** ** Further worked requests *)

Definition widget_env : ProcessEnv :=
  fun name =>
    if name =? "API_KEY" then Some "s3cret"
    else if name =? "ALLOWED_ORIGINS"
         then Some "https://app.example, https://admin.example"
         else None.

(** An environment without [API_KEY]. *)
Definition keyless_env : ProcessEnv :=
  fun name =>
    if name =? "ALLOWED_ORIGINS" then Some "https://app.example" else None.

Definition keyed_request (key : option string) (r : Request) : Incoming :=
  {| req_get := fun name => if name =? "X-API-Key" then key else None;
     request := r |}.

(** Library middleware that hands every request on; the limiter counts. *)
Definition counting_library : Library nat :=
  {| cors := fun _ st req => (Next req, st);
     express_json := fun st req => (Next req, st);
     helmet := fun st req => (Next req, st);
     rateLimit := fun opts st req =>
       if (st <? max opts)%nat
       then (Next req, S st)
       else (Responded {| status := 429; json := VStr "Too many requests" |},
             S st) |}.

(** A request whose [url] is a number. *)
Definition numeric_url_request : Request :=
  {| body := [("url", VNum 7)] |}.

(** ** Facts about the JavaScript primitives *)

Lemma slice_0 {A : Type} (n : nat) (l : list A) : slice 0 n l = firstn n l.
Proof. unfold slice. now rewrite Nat.sub_0_r. Qed.

Lemma get_set_same (k : string) (v : value) (o : object) :
  get k (set k v o) = v.
Proof.
  induction o as [|[k' v'] o IH]; cbn.
  - now rewrite String.eqb_refl.
  - destruct (k' =? k) eqn:E; cbn; rewrite E; auto.
Qed.

Lemma get_set_other (k k' : string) (v : value) (o : object) :
  k' <> k -> get k' (set k v o) = get k' o.
Proof.
  intro Hne. induction o as [|[k0 v0] o IH]; cbn.
  - destruct (k =? k') eqn:E; auto.
    apply String.eqb_eq in E. congruence.
  - destruct (k0 =? k) eqn:E; cbn.
    + apply String.eqb_eq in E. subst k0.
      destruct (k =? k') eqn:E'; auto.
      apply String.eqb_eq in E'. congruence.
    + now rewrite IH.
Qed.

(** ** Facts about promises *)

Lemma first_rejection_none {A : Type} (ps : list (Promise A)) (order : list nat) :
  (forall p, In p ps -> is_rejected p = None) ->
  first_rejection ps order = None.
Proof.
  intro Hall. induction order as [|i order IH]; cbn; auto.
  destruct (nth_error ps i) as [[a|e]|] eqn:E; auto.
  apply nth_error_In in E. apply Hall in E. discriminate.
Qed.

Lemma first_rejection_seq {A : Type} (ps qs : list (Promise A)) (e : exn) :
  In (Rejected e) ps ->
  exists e', first_rejection (qs ++ ps) (seq (length qs) (length ps)) = Some e'.
Proof.
  revert qs. induction ps as [|p ps IH]; intros qs Hin; [destruct Hin|].
  cbn [length seq first_rejection].
  rewrite nth_error_app2, Nat.sub_diag by lia. cbn [nth_error].
  destruct p as [a|e0]; [|eauto].
  destruct Hin as [Hin|Hin]; [discriminate|].
  specialize (IH (qs ++ [Returned a])%list Hin).
  rewrite <- app_assoc, length_app, Nat.add_1_r in IH. exact IH.
Qed.

Lemma first_rejection_app {A : Type} (ps : list (Promise A)) (o1 o2 : list nat) :
  first_rejection ps (o1 ++ o2) =
  match first_rejection ps o1 with
  | Some e => Some e
  | None => first_rejection ps o2
  end.
Proof.
  induction o1 as [|i o1 IH]; cbn; auto.
  destruct (nth_error ps i) as [[a|e]|]; auto.
Qed.

Lemma first_rejection_seq_none {A : Type} (ps : list (Promise A)) :
  first_rejection ps (seq 0 (length ps)) = None ->
  forall p, In p ps -> is_rejected p = None.
Proof.
  intros E [a|e] Hin; auto. exfalso.
  destruct (first_rejection_seq ps [] e Hin) as [e' He'].
  cbn [app length] in He'. congruence.
Qed.

Lemma fulfilled_all {A : Type} (ps : list (Promise A)) :
  (forall p, In p ps -> is_rejected p = None) ->
  ps = map Returned (fulfilled ps).
Proof.
  induction ps as [|[a|e] ps IH]; intro Hall; cbn; auto.
  - f_equal. apply IH. intros p Hin. apply Hall. now right.
  - specialize (Hall (Rejected e) (or_introl eq_refl)). discriminate.
Qed.

Lemma fulfilled_map_Returned {A : Type} (vs : list A) :
  fulfilled (map Returned vs) = vs.
Proof. induction vs; cbn; congruence. Qed.

(** [Promise.all] fulfils exactly when no promise rejects, whatever the
    order of settlement, and then with every value in array order. *)
Lemma promise_all_returned {A : Type} (sched : list nat) (ps : list (Promise A))
      (vs : list A) :
  promise_all sched ps = Returned vs <-> ps = map Returned vs.
Proof.
  unfold promise_all. split.
  - destruct (first_rejection _ _) as [e|] eqn:E; [discriminate|].
    intro H. injection H as <-.
    unfold settle_order in E. rewrite first_rejection_app in E.
    destruct (first_rejection ps (filter _ sched)); [discriminate|].
    now apply fulfilled_all, first_rejection_seq_none.
  - intros ->. rewrite first_rejection_none.
    + now rewrite fulfilled_map_Returned.
    + intros p Hin. apply in_map_iff in Hin. now destruct Hin as (v & <- & _).
Qed.

Lemma promise_all_rejected {A : Type} (sched : list nat) (ps : list (Promise A))
      (e : exn) :
  promise_all sched ps = Rejected e -> In (Rejected e) ps.
Proof.
  unfold promise_all.
  destruct (first_rejection _ _) as [e'|] eqn:E; [|discriminate].
  intro H. injection H as ->. revert E. generalize (settle_order sched (length ps)).
  induction l as [|i l IH]; cbn; [discriminate|].
  destruct (nth_error ps i) as [[a|e0]|] eqn:N; auto.
  intro H. injection H as ->. now apply nth_error_In in N.
Qed.

(** ** Facts about traces *)

Lemma calls_app (t1 t2 : Trace) : calls (t1 ++ t2) = (calls t1 ++ calls t2)%list.
Proof.
  induction t1 as [|[c|r|l v|l e] t1 IH]; cbn; congruence.
Qed.

Lemma responses_app (t1 t2 : Trace) :
  responses (t1 ++ t2) = (responses t1 ++ responses t2)%list.
Proof.
  induction t1 as [|[c|r|l v|l e] t1 IH]; cbn; congruence.
Qed.

Lemma calls_summarize (docs : list SourceDocument) :
  calls (map (fun d => EvCall (CallSummarizeContent (content d))) docs)
  = map (fun d => CallSummarizeContent (content d)) docs.
Proof. induction docs; cbn; congruence. Qed.

Lemma responses_summarize (docs : list SourceDocument) :
  responses (map (fun d => EvCall (CallSummarizeContent (content d))) docs) = [].
Proof. induction docs; cbn; congruence. Qed.

Lemma filter_summarize_calls (keep : Call -> bool) (docs : list SourceDocument) :
  (forall text, keep (CallSummarizeContent text) = false) ->
  filter keep (map (fun d => CallSummarizeContent (content d)) docs) = [].
Proof.
  intro Hk. induction docs as [|d docs IH]; cbn; auto. now rewrite Hk.
Qed.

Lemma filter_summarize_all (docs : list SourceDocument) :
  filter is_summarize (map (fun d => CallSummarizeContent (content d)) docs)
  = map (fun d => CallSummarizeContent (content d)) docs.
Proof. induction docs; cbn; congruence. Qed.

Create Rewrite HintDb trace.
#[local] Hint Rewrite calls_app responses_app calls_summarize
  responses_summarize filter_app filter_summarize_all app_nil_r : trace.

(** ** The handler, stage by stage *)

Lemma map_m_invoke_summarize (W : World) (docs : list SourceDocument) (t : Trace) :
  map_m (fun result =>
           invoke (CallSummarizeContent (content result))
                  (summarizeContent W (content result))) docs t
  = (Returned (map (fun d => summarizeContent W (content d)) docs),
     (t ++ map (fun d => EvCall (CallSummarizeContent (content d))) docs)%list).
Proof.
  revert t; induction docs as [|d docs IH]; intro t.
  - cbn. now rewrite app_nil_r.
  - cbn [map_m map]. unfold bind at 1. unfold invoke at 1.
    unfold bind at 1, emit, ret. unfold bind at 1.
    rewrite IH. unfold ret. now rewrite <- app_assoc.
Qed.

Ltac run_unfold W :=
  unfold run, handler;
  set (summarize_all :=
         map_m (fun result => invoke _ (summarizeContent W (content result))));
  cbv beta iota zeta delta
    [try_catch bind call invoke await emit ret throw res_status_json res_json
     console_log console_error].

Ltac run_step H := rewrite H; cbv beta iota delta [negb].

(** A request at the summarization stage has made its calls in source order
    and goes on as [conclude] says. *)
Lemma run_selected (W : World) (sched : list nat) (req : Request) (s : Stages) :
  selected W req s ->
  run W sched req = (trace_summarized W s ++ conclude W sched s)%list.
Proof.
  intros [[[(Hu & Ht & Hs & Hc & Hcl & Hn) Hf] Hb] Hi].
  unfold st_limited in Hb. rewrite <- (slice_0 7) in Hb.
  run_unfold W. rewrite Hu.
  run_step Ht. run_step Hs. run_step Hc. run_step Hcl. run_step Hn.
  run_step Hf. run_step Hb. run_step Hi.
  subst summarize_all. rewrite map_m_invoke_summarize. cbv beta iota.
  unfold conclude, trace_summarized, trace_searched, summary_promises.
  destruct (promise_all sched _) as [summaries|e]; cbv beta iota zeta.
  - destruct (generateObject W _) as [g|e]; cbn [snd]; unfold caught;
      rewrite <- ?app_assoc; reflexivity.
  - cbn [snd]. unfold caught. rewrite <- ?app_assoc. reflexivity.
Qed.

(** A rejected image selection ends the request in the [catch] block. *)
Lemma run_selection_rejected (W : World) (sched : list nat) (req : Request)
      (s : Stages) (e : exn) :
  scraped W req s ->
  selectBestImageWithVision W (images (st_batch s)) (st_name s) (openaiReal W)
  = Rejected e ->
  run W sched req
  = (trace_searched s
     ++ [EvCall (CallScrapeSearchResults (st_limited s) (st_name s));
         EvCall (CallSelectBestImage (images (st_batch s)) (st_name s)
                                     (openaiReal W))]
     ++ caught e)%list.
Proof.
  intros [[(Hu & Ht & Hs & Hc & Hcl & Hn) Hf] Hb] Hi.
  unfold st_limited in Hb. rewrite <- (slice_0 7) in Hb.
  run_unfold W. rewrite Hu.
  run_step Ht. run_step Hs. run_step Hc. run_step Hcl. run_step Hn.
  run_step Hf. run_step Hb. run_step Hi. reflexivity.
Qed.

(** A rejected scrape fan-out ends the request in the [catch] block. *)
Lemma run_scrape_rejected (W : World) (sched : list nat) (req : Request)
      (s : Stages) (e : exn) :
  searched W req s ->
  scrapeSearchResults W (st_limited s) (st_name s) = Rejected e ->
  run W sched req
  = (trace_searched s
     ++ [EvCall (CallScrapeSearchResults (st_limited s) (st_name s))]
     ++ caught e)%list.
Proof.
  intros [(Hu & Ht & Hs & Hc & Hcl & Hn) Hf] Hb.
  unfold st_limited in Hb. rewrite <- (slice_0 7) in Hb.
  run_unfold W. rewrite Hu.
  run_step Ht. run_step Hs. run_step Hc. run_step Hcl. run_step Hn.
  run_step Hf. run_step Hb. reflexivity.
Qed.

Lemma same_upstream_refl (W : World) : same_upstream W W.
Proof. repeat split. Qed.

(** Either the request gets as far as the search, or it ends before, on a
    trace that depends on the upstream collaborators only, delivers no
    record and never calls the synthesizer. *)
Lemma run_searched_or_early (W : World) (req : Request) :
  (exists s, searched W req s) \/
  (exists t, delivered t = None /\
             (forall c, In c (calls t) ->
                        match c with
                        | CallScrapeUrl _ | CallCleanContent _
                        | CallGetProductName _ | CallSearchGoogle _ => True
                        | _ => False
                        end) /\
             length (responses t) = 1 /\
             forall W' sched, same_upstream W W' -> run W' sched req = t).
Proof.
  destruct (truthy (get "url" (body req))) eqn:Ht.
  2:{ right. eexists. split; [|split; [|split]].
      4:{ intros W' sched _. run_unfold W'. run_step Ht. reflexivity. }
      all: cbn; auto. intros c []. }
  destruct (scrapeUrl W (get "url" (body req))) as [ic|e] eqn:Hs.
  2:{ right. eexists. split; [|split; [|split]].
      4:{ intros W' sched (E1 & E2 & E3 & E4). run_unfold W'. run_step Ht.
          rewrite E1. run_step Hs. reflexivity. }
      all: cbn; auto. intros c [<-|[]]; exact I. }
  destruct (truthy (opt_prop "content" ic)) eqn:Hc.
  2:{ right. eexists. split; [|split; [|split]].
      4:{ intros W' sched (E1 & E2 & E3 & E4). run_unfold W'. run_step Ht.
          rewrite E1. run_step Hs. run_step Hc. reflexivity. }
      all: cbn; auto. intros c [<-|[]]; exact I. }
  destruct (cleanContent W (prop "content" ic)) as [cl|e] eqn:Hcl.
  2:{ right. eexists. split; [|split; [|split]].
      4:{ intros W' sched (E1 & E2 & E3 & E4). run_unfold W'. run_step Ht.
          rewrite E1. run_step Hs. run_step Hc. rewrite E2. run_step Hcl.
          reflexivity. }
      all: cbn; auto. intros c [<-|[<-|[]]]; exact I. }
  destruct (getProductName W cl) as [name|e] eqn:Hn.
  2:{ right. eexists. split; [|split; [|split]].
      4:{ intros W' sched (E1 & E2 & E3 & E4). run_unfold W'. run_step Ht.
          rewrite E1. run_step Hs. run_step Hc. rewrite E2. run_step Hcl.
          rewrite E3. run_step Hn. reflexivity. }
      all: cbn; auto. intros c [<-|[<-|[<-|[]]]]; exact I. }
  destruct (searchGoogle W name) as [found|e] eqn:Hf.
  2:{ right. eexists. split; [|split; [|split]].
      4:{ intros W' sched (E1 & E2 & E3 & E4). run_unfold W'. run_step Ht.
          rewrite E1. run_step Hs. run_step Hc. rewrite E2. run_step Hcl.
          rewrite E3. run_step Hn. rewrite E4. run_step Hf. reflexivity. }
      all: cbn; auto. intros c [<-|[<-|[<-|[<-|[]]]]]; exact I. }
  left.
  exists {| st_url := get "url" (body req); st_initial := ic; st_cleaned := cl;
            st_name := name; st_found := found;
            st_batch := {| contents := []; images := [] |};
            st_image := VUndefined |}.
  repeat split; assumption.
Qed.

(** ** What a request at the summarization stage calls and sends *)

Lemma calls_conclude (W : World) (sched : list nat) (s : Stages) :
  calls (conclude W sched s) =
  match promise_all sched (summary_promises W s) with
  | Rejected _ => []
  | Returned summaries =>
      [CallGenerateObject
         (generate_args W (st_name s) (combinedDetails summaries))]
  end.
Proof.
  unfold conclude. destruct (promise_all sched _) as [summaries|e]; auto.
  cbv zeta. now destruct (generateObject W _).
Qed.

Lemma responses_conclude (W : World) (sched : list nat) (s : Stages) :
  responses (conclude W sched s) =
  match promise_all sched (summary_promises W s) with
  | Rejected e => [{| status := 500; json := failure_body e |}]
  | Returned summaries =>
      match generateObject W (generate_args W (st_name s)
                                            (combinedDetails summaries)) with
      | Rejected e => [{| status := 500; json := failure_body e |}]
      | Returned g =>
          [{| status := 200;
              json := VObj (set "image" (st_image s) (gen_object g)) |}]
      end
  end.
Proof.
  unfold conclude. destruct (promise_all sched _) as [summaries|e]; auto.
  cbv zeta. now destruct (generateObject W _).
Qed.

Lemma calls_trace_summarized (W : World) (s : Stages) :
  calls (trace_summarized W s) =
  [CallScrapeUrl (st_url s);
   CallCleanContent (prop "content" (st_initial s));
   CallGetProductName (st_cleaned s);
   CallSearchGoogle (st_name s);
   CallScrapeSearchResults (st_limited s) (st_name s);
   CallSelectBestImage (images (st_batch s)) (st_name s) (openaiReal W)]
  ++ map (fun d => CallSummarizeContent (content d)) (contents (st_batch s)).
Proof.
  unfold trace_summarized, trace_searched.
  autorewrite with trace. reflexivity.
Qed.

Lemma responses_trace_summarized (W : World) (s : Stages) :
  responses (trace_summarized W s) = [].
Proof.
  unfold trace_summarized, trace_searched.
  autorewrite with trace. reflexivity.
Qed.

Lemma responses_run_selected (W : World) (sched : list nat) (req : Request)
      (s : Stages) :
  selected W req s ->
  responses (run W sched req) = responses (conclude W sched s).
Proof.
  intro H. rewrite (run_selected W sched req s H), responses_app.
  now rewrite responses_trace_summarized.
Qed.

Lemma delivered_failure (t : Trace) (e : exn) :
  responses t = [{| status := 500; json := failure_body e |}] ->
  delivered t = None.
Proof. unfold delivered. now intros ->. Qed.

(** A delivered record comes from a request that went through every stage:
    it is the synthesized object with its [image] set to the selection. *)
Lemma delivered_inv (W : World) (sched : list nat) (req : Request)
      (record : object) :
  delivered (run W sched req) = Some record ->
  exists s summaries g,
    selected W req s /\
    summary_promises W s = map Returned summaries /\
    generateObject W (generate_args W (st_name s) (combinedDetails summaries))
    = Returned g /\
    record = set "image" (st_image s) (gen_object g).
Proof.
  intro Hd.
  destruct (run_searched_or_early W req) as [[s Hs]|(t & Hnone & _ & _ & Ht)].
  2:{ rewrite (Ht W sched (same_upstream_refl W)) in Hd. congruence. }
  destruct (scrapeSearchResults W (st_limited s) (st_name s)) as [b|e] eqn:Hb.
  2:{ rewrite (run_scrape_rejected W sched req s e Hs Hb) in Hd.
      unfold delivered in Hd. autorewrite with trace in Hd.
      cbn in Hd. discriminate. }
  assert (Hsc : scraped W req (with_st_batch s b)) by (split; assumption).
  destruct (selectBestImageWithVision W (images b) (st_name s) (openaiReal W))
    as [img|e] eqn:Hi.
  2:{ rewrite (run_selection_rejected W sched req _ e Hsc Hi) in Hd.
      unfold delivered in Hd. autorewrite with trace in Hd.
      cbn in Hd. discriminate. }
  set (s' := with_st_image (with_st_batch s b) img).
  assert (Hsel : selected W req s') by (split; assumption).
  unfold delivered in Hd.
  rewrite (responses_run_selected W sched req s' Hsel), responses_conclude in Hd.
  destruct (promise_all sched (summary_promises W s')) as [summaries|e] eqn:Hp;
    [|discriminate].
  destruct (generateObject W _) as [g|e] eqn:Hg; [|discriminate].
  exists s', summaries, g.
  split; [exact Hsel|]. split; [now apply promise_all_returned in Hp|].
  split; [exact Hg|]. injection Hd as <-. reflexivity.
Qed.

(** ** The join *)

Lemma filter_is_summary (results : list value) :
  filter is_summary results = map VStr (surviving_summaries results).
Proof.
  induction results as [|v results IH]; cbn; auto.
  destruct v as [| |b|n|s|items|fields]; cbn; auto.
  destruct s as [|c s]; cbn; auto. now rewrite IH.
Qed.

Lemma join_strings (sep : string) (ss : list string) :
  join sep (map VStr ss) = String.concat sep ss.
Proof.
  induction ss as [|a ss IH]; cbn; auto.
  destruct ss as [|b ss]; cbn; auto.
  cbn in IH. now rewrite IH.
Qed.

(** The handler's filter-and-join is the context the specification words. *)
Lemma combinedDetails_synthesis_context (results : list value) :
  combinedDetails results = synthesis_context results.
Proof.
  unfold combinedDetails, synthesis_context.
  now rewrite filter_is_summary, join_strings.
Qed.

Lemma surviving_summaries_filter (results : list value) :
  surviving_summaries (filter is_summary results) = surviving_summaries results.
Proof.
  induction results as [|v results IH]; cbn; auto.
  destruct v as [| |b|n|s|items|fields]; cbn; auto.
  destruct s as [|c s]; cbn; auto. now rewrite IH.
Qed.

(** ** Input validation *)

(** C3: a request whose [url] is missing or empty is answered with the 400
    validation error, and no collaborator is called. *)
Theorem missing_url_rejected_before_any_call
        (W : World) (sched : list nat) (req : Request) :
  get "url" (body req) = VUndefined \/ get "url" (body req) = VStr "" ->
  run W sched req = [EvSend {| status := 400; json := url_required |}] /\
  responses (run W sched req) = [{| status := 400; json := url_required |}] /\
  calls (run W sched req) = [].
Proof.
  intro Hurl.
  assert (Hrun : run W sched req
                 = [EvSend {| status := 400; json := url_required |}]).
  { run_unfold W. destruct Hurl as [-> | ->]; reflexivity. }
  rewrite Hrun. repeat split.
Qed.

Lemma missing_url_rejected_witness :
  (get "url" (body {| body := [("link", VStr "https://example.com")] |})
   = VUndefined \/
   get "url" (body {| body := [("link", VStr "https://example.com")] |})
   = VStr "") /\
  calls (run widget_world [] {| body := [("link", VStr "https://example.com")] |})
  = [].
Proof.
  split.
  - left. reflexivity.
  - apply (missing_url_rejected_before_any_call widget_world []
             {| body := [("link", VStr "https://example.com")] |}).
    left. reflexivity.
Defined.

(** ** Truncation of the search results *)

(** C4: the scrape fan-out is called once, with the first seven search
    results in order: all of them when there are at most seven, and
    [min 7 n] of them in general. *)
Theorem search_results_limited_to_seven
        (W : World) (sched : list nat) (req : Request) (s : Stages) :
  searched W req s ->
  let results := searchResults (st_found s) in
  let limited := firstn 7 results in
  filter is_scrape_batch (calls (run W sched req))
  = [CallScrapeSearchResults limited (st_name s)] /\
  length limited = Nat.min 7 (length results) /\
  (exists rest, results = limited ++ rest) /\
  (length results <= 7 -> limited = results).
Proof.
  intros Hs results limited. split; [|split; [|split]].
  - destruct (scrapeSearchResults W (st_limited s) (st_name s)) as [b|e] eqn:Hb.
    + assert (Hsc : scraped W req (with_st_batch s b)) by (split; assumption).
      destruct (selectBestImageWithVision W (images b) (st_name s)
                                          (openaiReal W)) as [img|e] eqn:Hi.
      * assert (Hsel : selected W req (with_st_image (with_st_batch s b) img))
          by (split; assumption).
        rewrite (run_selected W sched req _ Hsel), calls_app,
          calls_trace_summarized, calls_conclude.
        rewrite !filter_app, filter_summarize_calls by reflexivity.
        destruct (promise_all sched _); reflexivity.
      * rewrite (run_selection_rejected W sched req _ e Hsc Hi).
        reflexivity.
    + rewrite (run_scrape_rejected W sched req s e Hs Hb). reflexivity.
  - apply length_firstn.
  - exists (skipn 7 results). symmetry. apply firstn_skipn.
  - intro Hle. now apply firstn_all2.
Qed.

Lemma search_results_limited_witness :
  searched widget_world widget_request widget_stages /\
  filter is_scrape_batch (calls (run widget_world [] widget_request))
  = [CallScrapeSearchResults (firstn 7 ten_results) "Widget X"].
Proof.
  assert (H : searched widget_world widget_request widget_stages)
    by (repeat split; reflexivity).
  split; [exact H|].
  apply (search_results_limited_to_seven widget_world [] widget_request
           widget_stages H).
Defined.

(** ** The synthesis context *)

(** C7: when the summarizations settle, their results stand in the order of
    the scraped contents; the context handed to the synthesizer keeps the
    non-empty strings among them, in that order, joined by two line feeds
    -- a blank line -- between neighbours. *)
Theorem synthesis_context_is_filtered_join
        (W : World) (sched : list nat) (req : Request) (s : Stages)
        (summaries : list value) :
  selected W req s ->
  promise_all sched (summary_promises W s) = Returned summaries ->
  Forall2 (fun d v => summarizeContent W (content d) = Returned v)
          (contents (st_batch s)) summaries /\
  combinedDetails summaries
  = String.concat (String "010"%char (String "010"%char EmptyString))
                  (surviving_summaries summaries) /\
  filter is_generate (calls (run W sched req))
  = [CallGenerateObject
       (generate_args W (st_name s)
          (String.concat (String "010"%char (String "010"%char EmptyString))
                         (surviving_summaries summaries)))].
Proof.
  intros Hsel Hp. split; [|split].
  - apply promise_all_returned in Hp. unfold summary_promises in Hp.
    revert summaries Hp.
    induction (contents (st_batch s)) as [|d docs IH];
      intros [|v vs] Hp; try discriminate; constructor.
    + cbn in Hp. congruence.
    + apply IH. cbn in Hp. congruence.
  - exact (combinedDetails_synthesis_context summaries).
  - rewrite (run_selected W sched req s Hsel), calls_app,
      calls_trace_summarized, calls_conclude, Hp.
    rewrite !filter_app, filter_summarize_calls by reflexivity.
    rewrite combinedDetails_synthesis_context. reflexivity.
Qed.

Lemma synthesis_context_witness :
  (selected widget_world widget_request widget_stages /\
   promise_all [4; 0; 2] (summary_promises widget_world widget_stages)
   = Returned widget_summaries) /\
  combinedDetails widget_summaries
  = ("About page https://shop.example/0"
     ++ String "010"%char (String "010"%char "About page https://shop.example/3")
     ++ String "010"%char (String "010"%char "About page https://shop.example/6")
    )%string.
Proof.
  assert (H : selected widget_world widget_request widget_stages)
    by (repeat split; reflexivity).
  assert (P : promise_all [4; 0; 2] (summary_promises widget_world widget_stages)
              = Returned widget_summaries) by reflexivity.
  split; [split; assumption|].
  destruct (synthesis_context_is_filtered_join widget_world [4; 0; 2]
              widget_request widget_stages widget_summaries H P)
    as (_ & Hjoin & _).
  rewrite Hjoin. reflexivity.
Defined.

(** ** Failing summarizations *)

(** C1, as the code has it: when every summarization call returns -- a
    failed one returning an empty string or a value that is not a string --
    the failed ones add nothing to the joined summaries, the synthesizer is
    called with the join of the others, and the request delivers a record
    unless synthesis itself rejects. *)
Theorem returned_summarizer_failures_absorbed
        (W : World) (sched : list nat) (req : Request) (s : Stages)
        (results : list value) :
  selected W req s ->
  summary_promises W s = map Returned results ->
  let args := generate_args W (st_name s) (combinedDetails results) in
  combinedDetails results = combinedDetails (filter is_summary results) /\
  filter is_generate (calls (run W sched req)) = [CallGenerateObject args] /\
  (forall g, generateObject W args = Returned g ->
             delivered (run W sched req)
             = Some (set "image" (st_image s) (gen_object g))) /\
  (forall e, generateObject W args = Rejected e ->
             responses (run W sched req)
             = [{| status := 500; json := failure_body e |}]).
Proof.
  intros Hsel Hres args.
  assert (Hp : promise_all sched (summary_promises W s) = Returned results)
    by now apply promise_all_returned.
  split; [|split; [|split]].
  - rewrite !combinedDetails_synthesis_context. unfold synthesis_context.
    now rewrite surviving_summaries_filter.
  - rewrite (run_selected W sched req s Hsel), calls_app,
      calls_trace_summarized, calls_conclude, Hp.
    rewrite !filter_app, filter_summarize_calls by reflexivity.
    reflexivity.
  - intros g Hg. unfold delivered.
    rewrite (responses_run_selected W sched req s Hsel), responses_conclude, Hp.
    fold args. now rewrite Hg.
  - intros e Hg.
    rewrite (responses_run_selected W sched req s Hsel), responses_conclude, Hp.
    fold args. now rewrite Hg.
Qed.

Lemma returned_summarizer_failures_witness :
  (selected widget_world widget_request widget_stages /\
   summary_promises widget_world widget_stages = map Returned widget_summaries) /\
  delivered (run widget_world [] widget_request)
  = Some (set "image" (st_image widget_stages) widget_record).
Proof.
  assert (H : selected widget_world widget_request widget_stages)
    by (repeat split; reflexivity).
  assert (P : summary_promises widget_world widget_stages
              = map Returned widget_summaries) by reflexivity.
  split; [split; assumption|].
  destruct (returned_summarizer_failures_absorbed widget_world []
              widget_request widget_stages widget_summaries H P)
    as (_ & _ & Hdelivered & _).
  apply (Hdelivered {| gen_object := widget_record |}). reflexivity.
Defined.

(** C1, as stated, fails: with the summarizer rejecting for one page,
    [Promise.all] rejects, the synthesizer is never called and the caller
    gets the failure response carrying the summarizer's message. *)
Lemma summarizer_rejection_escalates :
  ~ summarizer_failures_never_escalate /\
  calls (run summarizer_down [] widget_request)
  = [CallScrapeUrl (VStr "https://example.com/prod1");
     CallCleanContent (VStr "Widget X details...");
     CallGetProductName (VStr "Widget X details...");
     CallSearchGoogle "Widget X";
     CallScrapeSearchResults (firstn 7 ten_results) "Widget X";
     CallSelectBestImage (images (st_batch widget_stages)) "Widget X"
                         {| apiKey := VStr "sk-test" |};
     CallSummarizeContent "page https://shop.example/0";
     CallSummarizeContent "page https://shop.example/1";
     CallSummarizeContent "page https://shop.example/3";
     CallSummarizeContent "page https://shop.example/4";
     CallSummarizeContent "page https://shop.example/6"] /\
  responses (run summarizer_down [] widget_request)
  = [{| status := 500;
        json := VObj [("error", VStr "Failed to scrape product information");
                      ("details", VStr "summarizer unavailable")] |}].
Proof.
  split; [|split; reflexivity].
  intro Hclaim.
  destruct (Hclaim summarizer_down [] widget_request widget_stages)
    as [args Hin].
  - repeat split; reflexivity.
  - apply Exists_cons_tl, Exists_cons_hd. reflexivity.
  - vm_compute in Hin.
    repeat (destruct Hin as [Hin|Hin]; [discriminate|]). exact Hin.
Qed.

(** ** Fatal failures *)

(** C2, as the code has it: when extraction, identification or synthesis
    fails, the request aborts -- the failing call is the last collaborator
    call -- and the caller gets exactly one response, the 500 failure made
    of the fixed summary and a detail string: the message of the error when
    it is an [Error], the text [Unknown error] when any other value was
    thrown; no record is delivered. *)
Theorem fatal_failure_aborts_with_one_response
        (W : World) (sched : list nat) (req : Request) (e : exn)
        (made : list Call) :
  fatal_failure W sched req e made ->
  calls (run W sched req) = made /\
  responses (run W sched req)
  = [{| status := 500;
        json := VObj [("error", VStr "Failed to scrape product information");
                      ("details",
                       VStr match e with
                            | ErrorObj message => message
                            | Thrown _ => "Unknown error"
                            end)] |}] /\
  delivered (run W sched req) = None.
Proof.
  intro Hfatal.
  assert (H : calls (run W sched req) = made /\
              responses (run W sched req)
              = [{| status := 500; json := failure_body e |}]).
  { inversion Hfatal as [e0 Ht Hs|initial Ht Hs Hc
                        |initial cleaned e0 Ht Hs Hc Hcl Hn
                        |s summaries e0 Hsel Hp Hg]; subst.
    - run_unfold W. run_step Ht. run_step Hs. split; reflexivity.
    - run_unfold W. run_step Ht. run_step Hs. run_step Hc. split; reflexivity.
    - run_unfold W. run_step Ht. run_step Hs. run_step Hc. run_step Hcl.
      run_step Hn. split; reflexivity.
    - split.
      + rewrite (run_selected W sched req s Hsel), calls_app,
          calls_trace_summarized, calls_conclude, Hp.
        now rewrite <- app_assoc.
      + rewrite (responses_run_selected W sched req s Hsel),
          responses_conclude.
        now rewrite Hp, Hg. }
  destruct H as [Hcalls Hresp].
  split; [exact Hcalls|]. split.
  - rewrite Hresp. destruct e; reflexivity.
  - exact (delivered_failure _ e Hresp).
Qed.

Lemma fatal_failure_witness :
  fatal_failure extraction_down [] widget_request (ErrorObj "net::ERR_FAILED")
                [CallScrapeUrl (VStr "https://example.com/prod1")] /\
  calls (run extraction_down [] widget_request)
  = [CallScrapeUrl (VStr "https://example.com/prod1")] /\
  responses (run extraction_down [] widget_request)
  = [{| status := 500;
        json := VObj [("error", VStr "Failed to scrape product information");
                      ("details", VStr "net::ERR_FAILED")] |}] /\
  delivered (run extraction_down [] widget_request) = None.
Proof.
  assert (H : fatal_failure extraction_down [] widget_request
                            (ErrorObj "net::ERR_FAILED")
                            [CallScrapeUrl (VStr "https://example.com/prod1")])
    by (apply (extraction_rejected extraction_down [] widget_request);
        reflexivity).
  split; [exact H|].
  exact (fatal_failure_aborts_with_one_response extraction_down []
           widget_request _ _ H).
Defined.

(** C2, as stated, fails: when the extractor rejects with an object that is
    not an [Error], the failure response does not carry the message of that
    object but the text [Unknown error]. *)
Lemma fatal_failure_message_not_reported :
  ~ fatal_failure_reports_message /\
  underlying_message (Thrown (VObj [("message", VStr "quota exceeded")]))
  = Some "quota exceeded" /\
  responses (run extraction_throws [] widget_request)
  = [{| status := 500;
        json := VObj [("error", VStr "Failed to scrape product information");
                      ("details", VStr "Unknown error")] |}].
Proof.
  split; [|split; reflexivity].
  intro Hclaim.
  specialize (Hclaim extraction_throws [] widget_request
                     (Thrown (VObj [("message", VStr "quota exceeded")]))
                     [CallScrapeUrl (VStr "https://example.com/prod1")]
                     "quota exceeded").
  assert (Hr : responses (run extraction_throws [] widget_request)
               = [{| status := 500;
                     json := VObj [("error",
                                    VStr "Failed to scrape product information");
                                   ("details", VStr "quota exceeded")] |}]).
  { apply Hclaim; [|reflexivity].
    apply (extraction_rejected extraction_throws [] widget_request);
      reflexivity. }
  vm_compute in Hr. discriminate.
Qed.

(** ** The image and the synthesized text *)

Lemma choosing_same_upstream (W : World) (img : value) :
  same_upstream W (choosing W img).
Proof. repeat split. Qed.

Lemma selected_choosing (W : World) (req : Request) (s : Stages) (img : value) :
  searched W req s ->
  scrapeSearchResults W (st_limited s) (st_name s) = Returned (st_batch s) ->
  selected (choosing W img) req (with_st_image s img).
Proof. intros Hs Hb. split; [split; assumption|reflexivity]. Qed.

(** C5: whatever the image selector answers, the synthesizer is called with
    the same model, schema and prompt; the delivered records agree on every
    field but [image]; and a failure is reported in the same words. *)
Theorem image_never_influences_text
        (W : World) (sched : list nat) (req : Request) (img1 img2 : value) :
  let t1 := run (choosing W img1) sched req in
  let t2 := run (choosing W img2) sched req in
  filter is_generate (calls t1) = filter is_generate (calls t2) /\
  (forall r1, delivered t1 = Some r1 ->
              exists r2, delivered t2 = Some r2 /\
                         forall k, k <> "image" -> get k r1 = get k r2) /\
  (delivered t1 = None -> responses t1 = responses t2).
Proof.
  intros t1 t2. subst t1 t2.
  destruct (run_searched_or_early W req) as [[s Hs]|(t & Hnone & _ & _ & Ht)].
  2:{ rewrite (Ht _ sched (choosing_same_upstream W img1)),
        (Ht _ sched (choosing_same_upstream W img2)).
      split; [reflexivity|]. split; [|reflexivity].
      intros r1 Hr1. congruence. }
  destruct (scrapeSearchResults W (st_limited s) (st_name s)) as [b|e] eqn:Hb.
  2:{ rewrite (run_scrape_rejected (choosing W img1) sched req s e Hs Hb),
        (run_scrape_rejected (choosing W img2) sched req s e Hs Hb).
      split; [reflexivity|]. split; [|reflexivity].
      intros r1 Hr1. unfold delivered in Hr1.
      autorewrite with trace in Hr1. cbn in Hr1. discriminate. }
  assert (H1 := selected_choosing W req (with_st_batch s b) img1 Hs Hb).
  assert (H2 := selected_choosing W req (with_st_batch s b) img2 Hs Hb).
  unfold delivered.
  rewrite (run_selected _ sched req _ H1), (run_selected _ sched req _ H2).
  rewrite !calls_app, !responses_app, !calls_trace_summarized,
    !responses_trace_summarized, !calls_conclude, !responses_conclude.
  rewrite !filter_app, !filter_summarize_calls by reflexivity.
  change (summary_promises (choosing W img1)
            (with_st_image (with_st_batch s b) img1))
    with (summary_promises W (with_st_batch s b)).
  change (summary_promises (choosing W img2)
            (with_st_image (with_st_batch s b) img2))
    with (summary_promises W (with_st_batch s b)).
  destruct (promise_all sched _) as [summaries|e].
  2:{ split; [reflexivity|]. split; [|reflexivity]. intros r1 Hr1.
      discriminate. }
  change (generateObject (choosing W img1)) with (generateObject W).
  change (generateObject (choosing W img2)) with (generateObject W).
  change (generate_args (choosing W img1)) with (generate_args W).
  change (generate_args (choosing W img2)) with (generate_args W).
  cbn [st_name with_st_image st_image app].
  destruct (generateObject W _) as [g|e].
  - split; [reflexivity|]. split; [|discriminate].
    intros r1 Hr1. injection Hr1 as <-. eexists. split; [reflexivity|].
    intros k Hk. now rewrite !get_set_other.
  - split; [reflexivity|]. split; [|reflexivity]. intros r1 Hr1. discriminate.
Qed.

(** C10: at assembly the delivered record is the synthesized object with
    [image] set to what the image selector returned: [image] reads as that
    result whatever the synthesizer put there, and every other field reads
    as the synthesizer left it. *)
Theorem assembly_sets_only_image
        (W : World) (sched : list nat) (req : Request) (s : Stages)
        (summaries : list value) (g : GenerateResult) :
  selected W req s ->
  promise_all sched (summary_promises W s) = Returned summaries ->
  generateObject W (generate_args W (st_name s) (combinedDetails summaries))
  = Returned g ->
  exists record,
    delivered (run W sched req) = Some record /\
    selectBestImageWithVision W (images (st_batch s)) (st_name s) (openaiReal W)
    = Returned (get "image" record) /\
    (forall k, k <> "image" -> get k record = get k (gen_object g)) /\
    record = set "image" (st_image s) (gen_object g).
Proof.
  intros Hsel Hp Hg. exists (set "image" (st_image s) (gen_object g)).
  split; [|split; [|split]].
  - unfold delivered.
    rewrite (responses_run_selected W sched req s Hsel), responses_conclude.
    now rewrite Hp, Hg.
  - rewrite get_set_same. exact (proj2 Hsel).
  - intros k Hk. now apply get_set_other.
  - reflexivity.
Qed.

Lemma assembly_sets_only_image_witness :
  (selected widget_world widget_request widget_stages /\
   promise_all [] (summary_promises widget_world widget_stages)
   = Returned widget_summaries /\
   generateObject widget_world
     (generate_args widget_world "Widget X" (combinedDetails widget_summaries))
   = Returned {| gen_object := widget_record |}) /\
  exists record,
    delivered (run widget_world [] widget_request) = Some record /\
    get "image" widget_record = VStr "https://cdn.example/made-up.png" /\
    get "image" record = VStr "https://shop.example/0/front.png".
Proof.
  assert (H : selected widget_world widget_request widget_stages)
    by (repeat split; reflexivity).
  assert (P : promise_all [] (summary_promises widget_world widget_stages)
              = Returned widget_summaries) by reflexivity.
  assert (G : generateObject widget_world
                (generate_args widget_world (st_name widget_stages)
                               (combinedDetails widget_summaries))
              = Returned {| gen_object := widget_record |}) by reflexivity.
  split; [repeat split; assumption|].
  destruct (assembly_sets_only_image widget_world [] widget_request
              widget_stages widget_summaries _ H P G)
    as (record & Hd & _ & _ & ->).
  eexists. split; [exact Hd|]. split; reflexivity.
Defined.

(** ** Determinism of the assembly *)

(** C8: with the collaborators' responses fixed, a request that delivers a
    record delivers the same record, through the same events, whatever the
    order in which the concurrent summarizations settle. *)
Theorem assembly_deterministic
        (W : World) (req : Request) (sched1 sched2 : list nat)
        (record : object) :
  delivered (run W sched1 req) = Some record ->
  run W sched2 req = run W sched1 req /\
  delivered (run W sched2 req) = Some record.
Proof.
  intro Hd.
  assert (Heq : run W sched2 req = run W sched1 req).
  { destruct (delivered_inv W sched1 req record Hd)
      as (s & summaries & g & Hsel & Hres & Hg & _).
    rewrite (run_selected W sched1 req s Hsel),
      (run_selected W sched2 req s Hsel).
    f_equal. unfold conclude.
    now rewrite (proj2 (promise_all_returned sched1 _ _) Hres),
      (proj2 (promise_all_returned sched2 _ _) Hres). }
  split; [exact Heq|]. now rewrite Heq.
Qed.

Lemma assembly_deterministic_witness :
  delivered (run widget_world [0; 1; 2; 3; 4] widget_request)
  = Some (set "image" (VStr "https://shop.example/0/front.png") widget_record) /\
  run widget_world [4; 3; 2; 1; 0] widget_request
  = run widget_world [0; 1; 2; 3; 4] widget_request.
Proof.
  assert (H : delivered (run widget_world [0; 1; 2; 3; 4] widget_request)
              = Some (set "image" (VStr "https://shop.example/0/front.png")
                          widget_record)) by reflexivity.
  split; [exact H|].
  apply (assembly_deterministic widget_world widget_request
           [0; 1; 2; 3; 4] [4; 3; 2; 1; 0] _ H).
Defined.

(** The detail string of a failure, unlike a delivered record, can depend on
    which of two rejected summarizations settles first. *)
Example failure_detail_follows_settlement :
  responses (run two_summarizers_down [0] widget_request)
  = [{| status := 500; json := failure_body (ErrorObj "rate limited") |}] /\
  responses (run two_summarizers_down [4] widget_request)
  = [{| status := 500; json := failure_body (ErrorObj "context too long") |}].
Proof. split; reflexivity. Qed.

(** ** The shape of the specifications *)

Lemma validated_honours_schema (W : World) (o : object) :
  honours_schema (with_generator W (validated o)).
Proof.
  intros args g. cbn. unfold validated.
  destruct (conforms (schema args) (VObj o)) eqn:E; [|discriminate].
  intros [= <-]. exact E.
Qed.

Lemma conforms_pairs (items : list value) :
  forallb (conforms (SObject [("label", SDefined); ("value", SDefined)])) items
  = true ->
  Forall label_value_pair items.
Proof.
  induction items as [|v items IH]; cbn [forallb]; intro H; constructor;
    apply andb_prop in H; destruct H as [Hv Hrest]; auto.
  destruct v as [| |b|n|str|l|o]; try discriminate.
  cbn in Hv. apply andb_prop in Hv. destruct Hv as [Hl Hv].
  apply andb_prop in Hv. destruct Hv as [Hv _].
  exists o. split; [reflexivity|].
  split; intro E; rewrite E in *; discriminate.
Qed.

(** C9: with [ProductSchema] as the specification gives it and a
    synthesizer that honours the schema it is handed, every delivered record
    has a [specifications] field that is an array of label and value pairs,
    the empty array included. *)
Theorem specifications_always_an_array
        (W : World) (sched : list nat) (req : Request) (record : object) :
  ProductSchema W = ProductRecordSchema ->
  honours_schema W ->
  delivered (run W sched req) = Some record ->
  exists specs,
    get "specifications" record = VArr specs /\
    Forall label_value_pair specs.
Proof.
  intros Hschema Hhon Hd.
  destruct (delivered_inv W sched req record Hd)
    as (s & summaries & g & _ & _ & Hg & ->).
  apply Hhon in Hg. cbn [schema generate_args] in Hg. rewrite Hschema in Hg.
  unfold ProductRecordSchema in Hg. cbn [conforms] in Hg.
  do 5 (apply andb_prop in Hg; destruct Hg as [_ Hg]).
  apply andb_prop in Hg. destruct Hg as [Hg _].
  rewrite get_set_other by discriminate.
  destruct (get "specifications" (gen_object g)) as [| |b|n|str|specs|o];
    try discriminate.
  exists specs. split; [reflexivity|].
  apply conforms_pairs. exact Hg.
Qed.

Lemma specifications_no_data_witness :
  (ProductSchema bare_world = ProductRecordSchema /\
   honours_schema bare_world /\
   delivered (run bare_world [] widget_request)
   = Some (set "image" (VStr "https://shop.example/0/front.png") bare_record)) /\
  exists specs,
    get "specifications"
        (set "image" (VStr "https://shop.example/0/front.png") bare_record)
    = VArr specs /\
    Forall label_value_pair specs.
Proof.
  assert (S : ProductSchema bare_world = ProductRecordSchema) by reflexivity.
  assert (V : honours_schema bare_world)
    by apply (validated_honours_schema widget_world bare_record).
  assert (D : delivered (run bare_world [] widget_request)
              = Some (set "image" (VStr "https://shop.example/0/front.png")
                          bare_record)) by reflexivity.
  split; [repeat split; assumption|].
  apply (specifications_always_an_array bare_world [] widget_request _ S V D).
Defined.

(** ** An empty evidence base *)

Lemma collect_batch_all_failed
      (scrape : string -> string -> Outcome ScrapedPage)
      (results : list SearchResult) (productName : string) :
  (forall r, In r results ->
             exists e, scrape (sr_url r) productName = Rejected e) ->
  collect_batch scrape results productName = {| contents := []; images := [] |}.
Proof.
  induction results as [|r results IH]; intro Hall; cbn; auto.
  destruct (Hall r (or_introl eq_refl)) as [e ->].
  apply IH. intros r' Hin. apply Hall. now right.
Qed.

(** What a request does once every retained result has failed to scrape,
    according to what image selection answers on the empty image list. *)
Lemma run_with_nothing_scraped
        (W : World) (sched : list nat) (req : Request) (s : Stages)
        (scrape : string -> string -> Outcome ScrapedPage) :
  scraped W req s ->
  st_batch s = collect_batch scrape (st_limited s) (st_name s) ->
  (forall r, In r (st_limited s) ->
             exists e, scrape (sr_url r) (st_name s) = Rejected e) ->
  let select := selectBestImageWithVision W [] (st_name s) (openaiReal W) in
  let args := generate_args W (st_name s) "" in
  contents (st_batch s) = [] /\
  images (st_batch s) = [] /\
  filter is_select (calls (run W sched req))
  = [CallSelectBestImage [] (st_name s) (openaiReal W)] /\
  filter is_summarize (calls (run W sched req)) = [] /\
  (forall img,
      select = Returned img ->
      filter is_generate (calls (run W sched req)) = [CallGenerateObject args] /\
      (forall g, generateObject W args = Returned g ->
                 delivered (run W sched req)
                 = Some (set "image" img (gen_object g))) /\
      (forall e, generateObject W args = Rejected e ->
                 responses (run W sched req)
                 = [{| status := 500; json := failure_body e |}])) /\
  (forall e,
      select = Rejected e ->
      filter is_generate (calls (run W sched req)) = [] /\
      responses (run W sched req)
      = [{| status := 500; json := failure_body e |}]).
Proof.
  intros Hsc Hbatch Hall select args.
  rewrite (collect_batch_all_failed scrape _ _ Hall) in Hbatch.
  assert (Hc : contents (st_batch s) = []) by now rewrite Hbatch.
  assert (Hi : images (st_batch s) = []) by now rewrite Hbatch.
  split; [exact Hc|]. split; [exact Hi|].
  assert (Hsettle : forall s', st_batch s' = st_batch s ->
                               promise_all sched (summary_promises W s')
                               = Returned []).
  { intros s' E. apply promise_all_returned. unfold summary_promises.
    now rewrite E, Hc. }
  subst select.
  destruct (selectBestImageWithVision W [] (st_name s) (openaiReal W))
    as [img|e] eqn:Hsel.
  - assert (Hs : selected W req (with_st_image s img)).
    { split; [exact Hsc|]. cbn. now rewrite Hi. }
    assert (Hresp := responses_run_selected W sched req _ Hs).
    rewrite responses_conclude, (Hsettle (with_st_image s img) eq_refl)
      in Hresp.
    change (combinedDetails []) with "" in Hresp.
    cbn [with_st_image st_name st_image] in Hresp. fold args in Hresp.
    assert (Hcalls : calls (run W sched req)
                     = [CallScrapeUrl (st_url s);
                        CallCleanContent (prop "content" (st_initial s));
                        CallGetProductName (st_cleaned s);
                        CallSearchGoogle (st_name s);
                        CallScrapeSearchResults (st_limited s) (st_name s);
                        CallSelectBestImage [] (st_name s) (openaiReal W);
                        CallGenerateObject args]).
    { rewrite (run_selected W sched req _ Hs), calls_app,
        calls_trace_summarized, calls_conclude,
        (Hsettle (with_st_image s img) eq_refl).
      cbn [with_st_image st_batch st_name st_url st_initial st_cleaned].
      rewrite Hc, Hi. reflexivity. }
    rewrite Hcalls. split; [reflexivity|]. split; [reflexivity|]. split.
    + intros img' [= <-]. split; [reflexivity|]. split.
      * intros g Hg. unfold delivered. now rewrite Hresp, Hg.
      * intros e Hg. now rewrite Hresp, Hg.
    + intros e [=].
  - assert (Hrej : selectBestImageWithVision W (images (st_batch s)) (st_name s)
                                             (openaiReal W) = Rejected e)
      by now rewrite Hi.
    rewrite (run_selection_rejected W sched req s e Hsc Hrej), Hi.
    split; [reflexivity|]. split; [reflexivity|]. split.
    + intros img [=].
    + intros e' [= <-]. split; reflexivity.
Qed.

(** C6: when every retained result fails to scrape, [contents] and
    [images] are empty, the image selector is still called, with no images,
    no summarization is started, and the synthesizer is still called, with
    an empty context; the request then delivers a record when synthesis
    returns and fails only when synthesis rejects, with the synthesis
    error. *)
Theorem empty_evidence_fails_only_in_synthesis
        (W : World) (sched : list nat) (req : Request) (s : Stages)
        (scrape : string -> string -> Outcome ScrapedPage) :
  selector_returns W ->
  scraped W req s ->
  st_batch s = collect_batch scrape (st_limited s) (st_name s) ->
  (forall r, In r (st_limited s) ->
             exists e, scrape (sr_url r) (st_name s) = Rejected e) ->
  let args := generate_args W (st_name s) "" in
  contents (st_batch s) = [] /\
  images (st_batch s) = [] /\
  filter is_select (calls (run W sched req))
  = [CallSelectBestImage [] (st_name s) (openaiReal W)] /\
  filter is_summarize (calls (run W sched req)) = [] /\
  filter is_generate (calls (run W sched req)) = [CallGenerateObject args] /\
  (forall g, generateObject W args = Returned g ->
             exists img,
               selectBestImageWithVision W [] (st_name s) (openaiReal W)
               = Returned img /\
               delivered (run W sched req)
               = Some (set "image" img (gen_object g))) /\
  (forall e, generateObject W args = Rejected e ->
             responses (run W sched req)
             = [{| status := 500; json := failure_body e |}]) /\
  (delivered (run W sched req) = None ->
   exists e, generateObject W args = Rejected e).
Proof.
  intros Hselector Hsc Hbatch Hall args.
  destruct (run_with_nothing_scraped W sched req s scrape Hsc Hbatch Hall)
    as (Hc & Hi & Hselect & Hsumm & Hreturned & _).
  destruct (Hselector [] (st_name s) (openaiReal W)) as [img Himg].
  destruct (Hreturned img Himg) as (Hgen & Hok & Hfail).
  split; [exact Hc|]. split; [exact Hi|]. split; [exact Hselect|].
  split; [exact Hsumm|]. split; [exact Hgen|]. split; [|split].
  - intros g Hg. exists img. split; [exact Himg|]. now apply Hok.
  - exact Hfail.
  - intro Hnone. fold args in Hok.
    destruct (generateObject W args) as [g|e] eqn:Hg; [|now exists e].
    rewrite (Hok g eq_refl) in Hnone. discriminate.
Qed.

Lemma empty_evidence_witness :
  (selector_returns no_page_scrapes /\
   scraped no_page_scrapes widget_request nothing_scraped_stages /\
   st_batch nothing_scraped_stages
   = collect_batch (fun _ _ => Rejected (ErrorObj "navigation timeout"))
                   (st_limited nothing_scraped_stages) "Widget X" /\
   forall r, In r (st_limited nothing_scraped_stages) ->
             exists e, (fun _ _ : string =>
                          @Rejected ScrapedPage (ErrorObj "navigation timeout"))
                         (sr_url r) "Widget X" = Rejected e) /\
  filter is_generate (calls (run no_page_scrapes [] widget_request))
  = [CallGenerateObject (generate_args no_page_scrapes "Widget X" "")] /\
  delivered (run no_page_scrapes [] widget_request)
  = Some (set "image" VNull widget_record).
Proof.
  assert (T : selector_returns no_page_scrapes)
    by (intros imgs name client; eexists; reflexivity).
  assert (H : scraped no_page_scrapes widget_request nothing_scraped_stages)
    by (repeat split; reflexivity).
  assert (B : st_batch nothing_scraped_stages
              = collect_batch
                  (fun _ _ => Rejected (ErrorObj "navigation timeout"))
                  (st_limited nothing_scraped_stages)
                  (st_name nothing_scraped_stages)) by reflexivity.
  assert (F : forall r, In r (st_limited nothing_scraped_stages) ->
                        exists e, (fun _ _ : string =>
                                     @Rejected ScrapedPage
                                       (ErrorObj "navigation timeout"))
                                    (sr_url r) (st_name nothing_scraped_stages)
                                  = Rejected e)
    by (intros r _; eexists; reflexivity).
  split; [split; [exact T|split; [exact H|split; [exact B|exact F]]]|].
  destruct (empty_evidence_fails_only_in_synthesis no_page_scrapes []
              widget_request nothing_scraped_stages _ T H B F)
    as (_ & _ & _ & _ & Hgen & Hok & _).
  split; [exact Hgen|].
  destruct (Hok {| gen_object := widget_record |} eq_refl) as (img & Himg & Hd).
  injection Himg as <-. exact Hd.
Defined.

(** ** Every request is answered once *)

Lemma try_catch_returns (work : M unit) (recover : exn -> M unit) (t : Trace) :
  (forall e t', fst (recover e t') = Returned tt) ->
  fst (try_catch work recover t) = Returned tt.
Proof.
  intro Hrec. unfold try_catch.
  destruct (work t) as [[[]|e] t']; cbn; auto.
Qed.

(** The shape of every run: the validation error alone, or the extraction
    call followed by events that end in one failure or one record. *)
Lemma run_classified (W : World) (sched : list nat) (req : Request) :
  (truthy (get "url" (body req)) = false /\
   run W sched req = [EvSend {| status := 400; json := url_required |}]) \/
  (truthy (get "url" (body req)) = true /\
   exists rest,
     run W sched req = EvCall (CallScrapeUrl (get "url" (body req))) :: rest /\
     ((exists e, responses rest
                 = [{| status := 500; json := failure_body e |}]) \/
      (exists record, responses rest
                      = [{| status := 200; json := VObj record |}]))).
Proof.
  destruct (truthy (get "url" (body req))) eqn:Ht.
  2:{ left. split; [reflexivity|]. run_unfold W. run_step Ht. reflexivity. }
  right. split; [reflexivity|].
  destruct (scrapeUrl W (get "url" (body req))) as [ic|e] eqn:Hs.
  2:{ eexists. split.
      - run_unfold W. run_step Ht. run_step Hs. reflexivity.
      - left. exists e. reflexivity. }
  destruct (truthy (opt_prop "content" ic)) eqn:Hc.
  2:{ eexists. split.
      - run_unfold W. run_step Ht. run_step Hs. run_step Hc. reflexivity.
      - left. eexists. reflexivity. }
  destruct (cleanContent W (prop "content" ic)) as [cl|e] eqn:Hcl.
  2:{ eexists. split.
      - run_unfold W. run_step Ht. run_step Hs. run_step Hc. run_step Hcl.
        reflexivity.
      - left. exists e. reflexivity. }
  destruct (getProductName W cl) as [name|e] eqn:Hn.
  2:{ eexists. split.
      - run_unfold W. run_step Ht. run_step Hs. run_step Hc. run_step Hcl.
        run_step Hn. reflexivity.
      - left. exists e. reflexivity. }
  destruct (searchGoogle W name) as [found|e] eqn:Hf.
  2:{ eexists. split.
      - run_unfold W. run_step Ht. run_step Hs. run_step Hc. run_step Hcl.
        run_step Hn. run_step Hf. reflexivity.
      - left. exists e. reflexivity. }
  set (s := {| st_url := get "url" (body req); st_initial := ic;
               st_cleaned := cl; st_name := name; st_found := found;
               st_batch := {| contents := []; images := [] |};
               st_image := VUndefined |}).
  assert (Hsearched : searched W req s) by (repeat split; assumption).
  destruct (scrapeSearchResults W (st_limited s) (st_name s)) as [b|e] eqn:Hb.
  2:{ eexists. split.
      - rewrite (run_scrape_rejected W sched req s e Hsearched Hb). reflexivity.
      - left. exists e. reflexivity. }
  assert (Hsc : scraped W req (with_st_batch s b)) by (split; assumption).
  destruct (selectBestImageWithVision W (images b) (st_name s) (openaiReal W))
    as [img|e] eqn:Hi.
  2:{ eexists. split.
      - rewrite (run_selection_rejected W sched req _ e Hsc Hi). reflexivity.
      - left. exists e. reflexivity. }
  assert (Hsel : selected W req (with_st_image (with_st_batch s b) img))
    by (split; assumption).
  exists (tl (trace_summarized W (with_st_image (with_st_batch s b) img))
          ++ conclude W sched (with_st_image (with_st_batch s b) img)).
  split.
  - rewrite (run_selected W sched req _ Hsel). reflexivity.
  - assert (Hresp : forall s',
               responses (tl (trace_summarized W s') ++ conclude W sched s')
               = responses (conclude W sched s')).
    { intro s'. unfold trace_summarized, trace_searched.
      cbn [tl app responses]. autorewrite with trace. reflexivity. }
    rewrite Hresp, responses_conclude.
    destruct (promise_all sched _) as [summaries|e]; [|left; eauto].
    destruct (generateObject W _) as [g|e]; [right|left]; eauto.
Qed.

(** X1: the handler's promise never rejects, and every request gets exactly
    one response: the 400 validation error, a 500 failure body, or a record
    with status 200. *)
Theorem handler_answers_exactly_once
        (W : World) (sched : list nat) (req : Request) :
  fst (handler W sched req []) = Returned tt /\
  exists r,
    responses (run W sched req) = [r] /\
    (r = {| status := 400; json := url_required |} \/
     (exists e, r = {| status := 500; json := failure_body e |}) \/
     (exists record, r = {| status := 200; json := VObj record |})).
Proof.
  split.
  - unfold handler. apply try_catch_returns. intros e t'. reflexivity.
  - destruct (run_classified W sched req)
      as [[_ ->]|[_ (rest & -> & [[e He]|[record Hr]])]]; cbn [responses].
    + eexists. split; [reflexivity|]. now left.
    + rewrite He. eexists. split; [reflexivity|]. right. left. now exists e.
    + rewrite Hr. eexists. split; [reflexivity|]. right. right.
      now exists record.
Qed.

(** ** Validation of the url *)

(** X2: the handler stops at validation exactly when [url] is falsy --
    missing, empty, [null], [false] or [0]: then and only then no
    collaborator is called, and then and only then the answer is the 400
    validation error. *)
Theorem validation_rejects_exactly_falsy_urls
        (W : World) (sched : list nat) (req : Request) :
  (truthy (get "url" (body req)) = false <-> calls (run W sched req) = []) /\
  (truthy (get "url" (body req)) = false <->
   responses (run W sched req)
   = [{| status := 400; json := url_required |}]).
Proof.
  destruct (run_classified W sched req)
    as [[Ht ->]|[Ht (rest & -> & Hresp)]]; rewrite Ht.
  - split; split; reflexivity.
  - split; split; try discriminate.
    cbn [responses]. destruct Hresp as [[e ->]|[record ->]]; discriminate.
Qed.

(** X3: a truthy [url] is handed to the extractor as it came, whatever its
    type; the extraction call is the first call of the request. *)
Theorem truthy_url_reaches_extractor_unchanged
        (W : World) (sched : list nat) (req : Request) :
  truthy (get "url" (body req)) = true ->
  hd_error (calls (run W sched req))
  = Some (CallScrapeUrl (get "url" (body req))).
Proof.
  intro Ht.
  destruct (run_classified W sched req)
    as [[Hf _]|[_ (rest & -> & _)]]; [congruence|reflexivity].
Qed.

Lemma truthy_url_witness :
  truthy (get "url" (body numeric_url_request)) = true /\
  hd_error (calls (run widget_world [] numeric_url_request))
  = Some (CallScrapeUrl (VNum 7)).
Proof.
  split; [reflexivity|].
  apply (truthy_url_reaches_extractor_unchanged widget_world []
           numeric_url_request).
  reflexivity.
Defined.

(** ** Where a failing request stops *)

(** X4: when the extractor rejects, or returns nothing with usable
    [content], the extraction call is the only collaborator call of the
    request. *)
Theorem extraction_failure_stops_pipeline
        (W : World) (sched : list nat) (req : Request) :
  truthy (get "url" (body req)) = true ->
  (exists e, scrapeUrl W (get "url" (body req)) = Rejected e) \/
  (exists initial, scrapeUrl W (get "url" (body req)) = Returned initial /\
                   truthy (opt_prop "content" initial) = false) ->
  calls (run W sched req) = [CallScrapeUrl (get "url" (body req))].
Proof.
  intros Ht [[e Hs]|(initial & Hs & Hc)].
  - run_unfold W. run_step Ht. run_step Hs. reflexivity.
  - run_unfold W. run_step Ht. run_step Hs. run_step Hc. reflexivity.
Qed.

Lemma extraction_failure_witness :
  (truthy (get "url" (body widget_request)) = true /\
   ((exists e, scrapeUrl extraction_down (get "url" (body widget_request))
               = Rejected e) \/
    (exists initial,
        scrapeUrl extraction_down (get "url" (body widget_request))
        = Returned initial /\
        truthy (opt_prop "content" initial) = false))) /\
  calls (run extraction_down [] widget_request)
  = [CallScrapeUrl (VStr "https://example.com/prod1")].
Proof.
  assert (T : truthy (get "url" (body widget_request)) = true) by reflexivity.
  assert (F : (exists e, scrapeUrl extraction_down
                           (get "url" (body widget_request)) = Rejected e) \/
              (exists initial,
                  scrapeUrl extraction_down (get "url" (body widget_request))
                  = Returned initial /\
                  truthy (opt_prop "content" initial) = false))
    by (left; eexists; reflexivity).
  split; [split; assumption|].
  apply (extraction_failure_stops_pipeline extraction_down [] widget_request T F).
Defined.

(** X5: a rejection of cleaning, of the search, of the scrape fan-out or of
    image selection ends the request like the failures the handler names:
    one 500 failure body with that error's detail, no record, and neither a
    summarization nor a synthesis call. *)
Theorem stage_rejection_is_fatal
        (W : World) (sched : list nat) (req : Request) (e : exn) :
  stage_rejected W req e ->
  responses (run W sched req) = [{| status := 500; json := failure_body e |}] /\
  delivered (run W sched req) = None /\
  filter is_summarize (calls (run W sched req)) = [] /\
  filter is_generate (calls (run W sched req)) = [].
Proof.
  intro Hrej.
  assert (H : responses (run W sched req)
              = [{| status := 500; json := failure_body e |}] /\
              filter is_summarize (calls (run W sched req)) = [] /\
              filter is_generate (calls (run W sched req)) = []).
  { inversion Hrej as [initial e0 Ht Hs Hc Hcl
                      |s e0 (Hu & Ht & Hs & Hc & Hcl & Hn) Hf
                      |s e0 Hsearched Hb
                      |s e0 Hsc Hi]; subst.
    - run_unfold W. run_step Ht. run_step Hs. run_step Hc. run_step Hcl.
      repeat split.
    - run_unfold W. rewrite Hu. run_step Ht. run_step Hs. run_step Hc.
      run_step Hcl. run_step Hn. run_step Hf. repeat split.
    - rewrite (run_scrape_rejected W sched req s e Hsearched Hb).
      repeat split.
    - rewrite (run_selection_rejected W sched req s e Hsc Hi).
      repeat split. }
  destruct H as (Hr & Hsum & Hgen). repeat split; try assumption.
  exact (delivered_failure _ e Hr).
Qed.

Lemma stage_rejection_witness :
  stage_rejected nothing_scraped widget_request
                 (ErrorObj "no candidate images") /\
  responses (run nothing_scraped [] widget_request)
  = [{| status := 500;
        json := failure_body (ErrorObj "no candidate images") |}].
Proof.
  assert (H : stage_rejected nothing_scraped widget_request
                             (ErrorObj "no candidate images")).
  { apply (selection_rejected nothing_scraped widget_request
             nothing_scraped_stages).
    - repeat split; reflexivity.
    - reflexivity. }
  split; [exact H|].
  apply (stage_rejection_is_fatal nothing_scraped [] widget_request _ H).
Defined.

(** ** The summarization fan-out *)

Lemma calls_run_selected (W : World) (sched : list nat) (req : Request)
      (s : Stages) :
  selected W req s ->
  calls (run W sched req)
  = [CallScrapeUrl (st_url s);
     CallCleanContent (prop "content" (st_initial s));
     CallGetProductName (st_cleaned s);
     CallSearchGoogle (st_name s);
     CallScrapeSearchResults (st_limited s) (st_name s);
     CallSelectBestImage (images (st_batch s)) (st_name s) (openaiReal W)]
    ++ map (fun d => CallSummarizeContent (content d)) (contents (st_batch s))
    ++ calls (conclude W sched s).
Proof.
  intro Hsel.
  rewrite (run_selected W sched req s Hsel), calls_app, calls_trace_summarized.
  now rewrite <- app_assoc.
Qed.

Lemma promise_all_some_rejected {A : Type} (sched : list nat)
      (ps : list (Promise A)) (e0 : exn) :
  In (Rejected e0) ps ->
  exists e, promise_all sched ps = Rejected e /\ In (Rejected e) ps.
Proof.
  intro Hin. destruct (promise_all sched ps) as [vs|e] eqn:Hp.
  - apply promise_all_returned in Hp. subst ps.
    apply in_map_iff in Hin. destruct Hin as (v & Hv & _). discriminate.
  - exists e. split; [reflexivity|]. exact (promise_all_rejected sched ps e Hp).
Qed.

(** X6: at the summarization stage every scraped content is handed to the
    summarizer exactly once, in the order of [contents], whether or not some
    of these calls reject and whatever the order in which they settle. *)
Theorem every_content_summarized_once
        (W : World) (sched : list nat) (req : Request) (s : Stages) :
  selected W req s ->
  filter is_summarize (calls (run W sched req))
  = map (fun d => CallSummarizeContent (content d)) (contents (st_batch s)).
Proof.
  intro Hsel. rewrite (calls_run_selected W sched req s Hsel), calls_conclude.
  rewrite !filter_app, filter_summarize_all.
  destruct (promise_all sched _); cbn; now rewrite app_nil_r.
Qed.

Lemma every_content_summarized_witness :
  selected summarizer_down widget_request widget_stages /\
  filter is_summarize (calls (run summarizer_down [2] widget_request))
  = [CallSummarizeContent "page https://shop.example/0";
     CallSummarizeContent "page https://shop.example/1";
     CallSummarizeContent "page https://shop.example/3";
     CallSummarizeContent "page https://shop.example/4";
     CallSummarizeContent "page https://shop.example/6"].
Proof.
  assert (H : selected summarizer_down widget_request widget_stages)
    by (repeat split; reflexivity).
  split; [exact H|].
  apply (every_content_summarized_once summarizer_down [2] widget_request
           widget_stages H).
Defined.

(** X7: when a summarization call rejects, the request fails: the single
    response is the 500 failure body of one of the rejected summarizations,
    and the synthesizer is not called. *)
Theorem summarizer_rejection_is_fatal
        (W : World) (sched : list nat) (req : Request) (s : Stages)
        (e0 : exn) :
  selected W req s ->
  In (Rejected e0) (summary_promises W s) ->
  exists e,
    In (Rejected e) (summary_promises W s) /\
    responses (run W sched req)
    = [{| status := 500; json := failure_body e |}] /\
    filter is_generate (calls (run W sched req)) = [].
Proof.
  intros Hsel Hin.
  destruct (promise_all_some_rejected sched _ e0 Hin) as (e & Hp & He).
  exists e. split; [exact He|]. split.
  - now rewrite (responses_run_selected W sched req s Hsel),
      responses_conclude, Hp.
  - rewrite (calls_run_selected W sched req s Hsel), calls_conclude, Hp.
    rewrite !filter_app, filter_summarize_calls by reflexivity. reflexivity.
Qed.

Lemma summarizer_rejection_witness :
  (selected summarizer_down widget_request widget_stages /\
   In (Rejected (ErrorObj "summarizer unavailable"))
      (summary_promises summarizer_down widget_stages)) /\
  filter is_generate (calls (run summarizer_down [] widget_request)) = [].
Proof.
  assert (H : selected summarizer_down widget_request widget_stages)
    by (repeat split; reflexivity).
  assert (R : In (Rejected (ErrorObj "summarizer unavailable"))
                 (summary_promises summarizer_down widget_stages))
    by (right; right; left; reflexivity).
  split; [split; assumption|].
  destruct (summarizer_rejection_is_fatal summarizer_down [] widget_request
              widget_stages _ H R) as (e & _ & _ & Hgen).
  exact Hgen.
Defined.

(** ** The calls of a successful request *)

(** X8: a request that delivers a record has called extraction, cleaning,
    identification, search, the scrape fan-out and image selection once
    each, in that order, then the summarizer once per scraped content, and
    last the synthesizer, once. *)
Theorem delivered_run_calls_in_pipeline_order
        (W : World) (sched : list nat) (req : Request) (record : object) :
  delivered (run W sched req) = Some record ->
  exists s summaries,
    selected W req s /\
    calls (run W sched req)
    = [CallScrapeUrl (st_url s);
       CallCleanContent (prop "content" (st_initial s));
       CallGetProductName (st_cleaned s);
       CallSearchGoogle (st_name s);
       CallScrapeSearchResults (st_limited s) (st_name s);
       CallSelectBestImage (images (st_batch s)) (st_name s) (openaiReal W)]
      ++ map (fun d => CallSummarizeContent (content d))
             (contents (st_batch s))
      ++ [CallGenerateObject
            (generate_args W (st_name s) (combinedDetails summaries))].
Proof.
  intro Hd.
  destruct (delivered_inv W sched req record Hd)
    as (s & summaries & g & Hsel & Hres & _ & _).
  exists s, summaries. split; [exact Hsel|].
  rewrite (calls_run_selected W sched req s Hsel), calls_conclude.
  now rewrite (proj2 (promise_all_returned sched _ _) Hres).
Qed.

Lemma delivered_run_calls_witness :
  delivered (run widget_world [] widget_request)
  = Some (set "image" (VStr "https://shop.example/0/front.png") widget_record) /\
  exists s summaries,
    selected widget_world widget_request s /\
    calls (run widget_world [] widget_request)
    = [CallScrapeUrl (st_url s);
       CallCleanContent (prop "content" (st_initial s));
       CallGetProductName (st_cleaned s);
       CallSearchGoogle (st_name s);
       CallScrapeSearchResults (st_limited s) (st_name s);
       CallSelectBestImage (images (st_batch s)) (st_name s)
                           (openaiReal widget_world)]
      ++ map (fun d => CallSummarizeContent (content d))
             (contents (st_batch s))
      ++ [CallGenerateObject
            (generate_args widget_world (st_name s)
                           (combinedDetails summaries))].
Proof.
  assert (D : delivered (run widget_world [] widget_request)
              = Some (set "image" (VStr "https://shop.example/0/front.png")
                          widget_record)) by reflexivity.
  split; [exact D|].
  exact (delivered_run_calls_in_pipeline_order widget_world []
           widget_request _ D).
Defined.

(** ** The properties of a delivered record *)

Lemma keys_set_present (k : string) (v : value) (o : object) :
  In k (keys o) -> keys (set k v o) = keys o.
Proof.
  unfold keys. induction o as [|[k0 v0] o IH]; cbn; [intros []|].
  intro Hin. destruct (k0 =? k) eqn:E; cbn; [reflexivity|].
  f_equal. apply IH. destruct Hin as [->|Hin]; [|exact Hin].
  rewrite String.eqb_refl in E. discriminate.
Qed.

Lemma keys_set_absent (k : string) (v : value) (o : object) :
  ~ In k (keys o) -> keys (set k v o) = keys o ++ [k].
Proof.
  unfold keys. induction o as [|[k0 v0] o IH]; cbn; [reflexivity|].
  intro Hnin. destruct (k0 =? k) eqn:E; cbn.
  - apply String.eqb_eq in E. exfalso. apply Hnin. now left.
  - f_equal. apply IH. intro Hin. apply Hnin. now right.
Qed.

Lemma wire_keys_set_image (v : value) (o : object) :
  NoDup (keys o) ->
  (In "image" (wire_keys (set "image" v o)) <-> v <> VUndefined).
Proof.
  unfold wire_keys, keys. induction o as [|[k0 v0] o IH]; intro Hnd.
  - cbn. destruct v; cbn; split; try discriminate; try tauto;
      intros _; now left.
  - inversion Hnd as [|k ks Hnin Hnd']; subst. cbn [set].
    destruct (k0 =? "image") eqn:E.
    + apply String.eqb_eq in E. subst k0.
      assert (Hrest : ~ In "image"
                        (map fst (filter (fun kv => defined (snd kv)) o))).
      { intro Hin. apply Hnin. apply in_map_iff in Hin.
        destruct Hin as (kv & Hk & Hf). apply filter_In in Hf.
        apply in_map_iff. exists kv. tauto. }
      cbn [filter snd]. destruct v; cbn [defined map fst In];
        split; try discriminate; try tauto; intros _; now left.
    + cbn [filter snd]. specialize (IH Hnd').
      assert (Hk0 : k0 <> "image")
        by (intros ->; rewrite String.eqb_refl in E; discriminate).
      destruct (defined v0); cbn [map fst In]; [|exact IH].
      split.
      * intros [Hk|Hin]; [contradiction|now apply IH].
      * intro Hv. right. now apply IH.
Qed.

(** X9: the object a successful request hands to [res.json] is the object
    that [generateObject] returned for this request with [image] set to the
    selection: it has the synthesized properties in their order, [image]
    kept in its place or else added in last place; in the JSON text, which
    leaves out [undefined] values, [image] is a member exactly when the
    selection is not [undefined]. *)
Theorem delivered_record_properties
        (W : World) (sched : list nat) (req : Request) (record : object) :
  delivered (run W sched req) = Some record ->
  exists s summaries g,
    selected W req s /\
    promise_all sched (summary_promises W s) = Returned summaries /\
    generateObject W (generate_args W (st_name s) (combinedDetails summaries))
    = Returned g /\
    record = set "image" (st_image s) (gen_object g) /\
    In "image" (keys record) /\
    (In "image" (keys (gen_object g)) /\ keys record = keys (gen_object g) \/
     ~ In "image" (keys (gen_object g)) /\
     keys record = keys (gen_object g) ++ ["image"]) /\
    (NoDup (keys (gen_object g)) ->
     (In "image" (wire_keys record) <-> st_image s <> VUndefined)).
Proof.
  intro Hd.
  destruct (delivered_inv W sched req record Hd)
    as (s & summaries & g & Hsel & Hres & Hg & ->).
  exists s, summaries, g. split; [exact Hsel|].
  split; [now apply promise_all_returned|].
  split; [exact Hg|]. split; [reflexivity|].
  assert (Hwire := wire_keys_set_image (st_image s) (gen_object g)).
  destruct (in_dec string_dec "image" (keys (gen_object g))) as [Hin|Hnin].
  - rewrite (keys_set_present _ _ _ Hin).
    split; [exact Hin|]. split; [left; split; [exact Hin|reflexivity]|].
    exact Hwire.
  - rewrite (keys_set_absent _ _ _ Hnin). split.
    + apply in_or_app. right. now left.
    + split; [right; split; [exact Hnin|reflexivity]|exact Hwire].
Qed.

Lemma delivered_record_properties_witness :
  delivered (run bare_world [] widget_request)
  = Some (set "image" (VStr "https://shop.example/0/front.png") bare_record) /\
  keys (set "image" (VStr "https://shop.example/0/front.png") bare_record)
  = ["name"; "description"; "whereToBuy"; "specifications"; "faq"; "image"] /\
  exists s summaries g,
    selected bare_world widget_request s /\
    promise_all [] (summary_promises bare_world s) = Returned summaries /\
    generateObject bare_world
      (generate_args bare_world (st_name s) (combinedDetails summaries))
    = Returned g /\
    set "image" (VStr "https://shop.example/0/front.png") bare_record
    = set "image" (st_image s) (gen_object g).
Proof.
  assert (D : delivered (run bare_world [] widget_request)
              = Some (set "image" (VStr "https://shop.example/0/front.png")
                          bare_record)) by reflexivity.
  split; [exact D|]. split; [reflexivity|].
  destruct (delivered_record_properties bare_world [] widget_request _ D)
    as (s & summaries & g & Hsel & Hp & Hg & Hrec & _).
  exists s, summaries, g.
  split; [exact Hsel|split; [exact Hp|split; [exact Hg|exact Hrec]]].
Defined.

(** ** An empty synthesis context *)

Lemma surviving_summaries_nonempty (results : list value) :
  Forall (fun s => s <> "") (surviving_summaries results).
Proof.
  induction results as [|v results IH]; cbn; [constructor|].
  destruct v as [| |b|n|s|items|fields]; cbn; auto.
  destruct s as [|c s]; cbn; auto.
  constructor; [discriminate|exact IH].
Qed.

Lemma concat_nonempty (sep : string) (pieces : list string) :
  Forall (fun s => s <> "") pieces ->
  String.concat sep pieces = "" -> pieces = [].
Proof.
  intros Hall Hc. destruct pieces as [|p pieces]; [reflexivity|].
  exfalso. inversion Hall as [|p' ps' Hp _]; subst.
  destruct p as [|c p]; [now apply Hp|].
  cbn in Hc. destruct pieces; discriminate.
Qed.

(** X10: the context handed to the synthesizer is empty exactly when no
    summarization result passes the filter. *)
Theorem context_empty_iff_nothing_survives (results : list value) :
  combinedDetails results = "" <-> filter is_summary results = [].
Proof.
  rewrite combinedDetails_synthesis_context, filter_is_summary.
  unfold synthesis_context. split.
  - intro Hc.
    now rewrite (concat_nonempty _ _ (surviving_summaries_nonempty results) Hc).
  - intro Hm. destruct (surviving_summaries results); [reflexivity|discriminate].
Qed.

(** ** The API key *)

Lemma authenticateApiKey_cases (env : ProcessEnv) (req : Incoming) :
  (authenticateApiKey env req = Next req /\
   exists k, k <> "" /\ req_get req "X-API-Key" = Some k /\
             env "API_KEY" = Some k) \/
  (authenticateApiKey env req
   = Responded {| status := 401; json := unauthorized |} /\
   ~ exists k, k <> "" /\ req_get req "X-API-Key" = Some k /\
               env "API_KEY" = Some k).
Proof.
  unfold authenticateApiKey, of_env, truthy, strict_eq.
  destruct (req_get req "X-API-Key") as [k|] eqn:Hk.
  2:{ right. split; [reflexivity|]. intros (k & _ & Hsome & _). discriminate. }
  destruct k as [|c k].
  { right. split; [reflexivity|]. intros (k & Hne & Hsome & _).
    injection Hsome as <-. now apply Hne. }
  change (String c k =? "") with false. cbn [negb orb].
  destruct (env "API_KEY") as [k'|] eqn:He.
  2:{ right. split; [reflexivity|]. intros (k0 & _ & _ & Hsome). discriminate. }
  destruct (String c k =? k') eqn:E; cbn [negb].
  - left. split; [reflexivity|]. apply String.eqb_eq in E. subst k'.
    exists (String c k). repeat split. discriminate.
  - right. split; [reflexivity|]. intros (k0 & _ & H1 & H2).
    assert (Hsame : k' = String c k) by congruence. subst k'.
    rewrite String.eqb_refl in E. discriminate.
Qed.

(** X11: the API-key middleware hands a request on exactly when its
    [X-API-Key] header is a non-empty string equal to [API_KEY]; every other
    request is answered 401 with the same body, whether the key is missing
    or wrong. *)
Theorem api_key_passes_iff_header_matches
        (env : ProcessEnv) (req : Incoming) :
  (authenticateApiKey env req = Next req <->
   exists k, k <> "" /\ req_get req "X-API-Key" = Some k /\
             env "API_KEY" = Some k) /\
  (authenticateApiKey env req <> Next req <->
   authenticateApiKey env req
   = Responded {| status := 401; json := unauthorized |}).
Proof.
  destruct (authenticateApiKey_cases env req) as [[Hn Hk]|[Hr Hk]].
  - split; split; auto.
    + intro H. contradiction.
    + rewrite Hn. discriminate.
  - split; split; auto.
    + rewrite Hr. discriminate.
    + intro H. contradiction.
    + rewrite Hr. discriminate.
Qed.

(** X12: with [API_KEY] unset or empty the middleware fails closed: every
    request is answered 401, whatever key it carries. *)
Theorem unset_api_key_rejects_every_request (env : ProcessEnv) :
  env "API_KEY" = None \/ env "API_KEY" = Some "" ->
  forall req,
    authenticateApiKey env req
    = Responded {| status := 401; json := unauthorized |}.
Proof.
  intros Hunset req.
  destruct (authenticateApiKey_cases env req)
    as [[_ (k & Hne & _ & Hk)]|[Hr _]]; [|exact Hr].
  destruct Hunset as [Hu|Hu]; rewrite Hu in Hk; [discriminate|].
  injection Hk as <-. now contradiction Hne.
Qed.

Lemma unset_api_key_witness :
  (keyless_env "API_KEY" = None \/ keyless_env "API_KEY" = Some "") /\
  authenticateApiKey keyless_env (keyed_request (Some "s3cret") widget_request)
  = Responded {| status := 401; json := unauthorized |}.
Proof.
  assert (H : keyless_env "API_KEY" = None \/ keyless_env "API_KEY" = Some "")
    by (left; reflexivity).
  split; [exact H|].
  apply (unset_api_key_rejects_every_request keyless_env H).
Defined.

(** ** The allowed origins *)

Lemma split_not_nil (sep : ascii) (s : string) : split sep s <> [].
Proof.
  destruct s as [|c s]; cbn; [discriminate|].
  destruct (Ascii.eqb c sep); [discriminate|].
  destruct (split sep s); discriminate.
Qed.

Lemma concat_split (sep : ascii) (s : string) :
  String.concat (String sep "") (split sep s) = s.
Proof.
  induction s as [|c s IH]; [reflexivity|]. cbn [split].
  destruct (Ascii.eqb c sep) eqn:E.
  - apply Ascii.eqb_eq in E. subst c.
    destruct (split sep s) as [|p ps] eqn:Hs; [now apply split_not_nil in Hs|].
    rewrite <- IH. reflexivity.
  - destruct (split sep s) as [|p ps] eqn:Hs; [now apply split_not_nil in Hs|].
    rewrite <- IH. destruct ps; reflexivity.
Qed.

Lemma split_pieces_without_sep (sep : ascii) (s : string) :
  Forall (fun piece => ~ In sep (list_ascii_of_string piece)) (split sep s).
Proof.
  induction s as [|c s IH]; cbn [split].
  - constructor; [intros []|constructor].
  - destruct (Ascii.eqb c sep) eqn:E.
    + constructor; [intros []|exact IH].
    + destruct (split sep s) as [|p ps].
      * constructor; [|constructor]. cbn. intros [->|[]].
        rewrite Ascii.eqb_refl in E. discriminate.
      * inversion IH as [|p' ps' Hp Hps]; subst.
        constructor; [|exact Hps]. cbn. intros [->|Hin]; [|now apply Hp].
        rewrite Ascii.eqb_refl in E. discriminate.
Qed.

Lemma length_split (sep : ascii) (s : string) :
  length (split sep s)
  = S (count_occ ascii_dec (list_ascii_of_string s) sep).
Proof.
  induction s as [|c s IH]; [reflexivity|]. cbn [split list_ascii_of_string].
  destruct (Ascii.eqb c sep) eqn:E.
  - apply Ascii.eqb_eq in E. subst c.
    rewrite count_occ_cons_eq by reflexivity. cbn [length]. now rewrite IH.
  - rewrite count_occ_cons_neq.
    + destruct (split sep s) as [|p ps] eqn:Hs;
        [now apply split_not_nil in Hs|]. exact IH.
    + intros ->. rewrite Ascii.eqb_refl in E. discriminate.
Qed.

(** X13: the list of allowed origins is empty exactly when
    [ALLOWED_ORIGINS] is unset; a variable that is set, even to the empty
    string, always lists at least one origin. *)
Theorem origins_empty_iff_unset (env : ProcessEnv) :
  origin (corsOptions env) = [] <-> env "ALLOWED_ORIGINS" = None.
Proof.
  cbn [origin corsOptions].
  destruct (env "ALLOWED_ORIGINS") as [s|]; cbn [option_map].
  - split; [|discriminate]. intro H. now apply split_not_nil in H.
  - split; reflexivity.
Qed.

(** X14: when [ALLOWED_ORIGINS] is set, the allowed origins are its
    comma-separated pieces, untrimmed: joined again with commas they give
    the variable back, none of them holds a comma, and there is one more of
    them than there are commas. *)
Theorem origins_are_the_comma_separated_pieces
        (env : ProcessEnv) (listed : string) :
  env "ALLOWED_ORIGINS" = Some listed ->
  String.concat "," (origin (corsOptions env)) = listed /\
  Forall (fun o => ~ In ","%char (list_ascii_of_string o))
         (origin (corsOptions env)) /\
  length (origin (corsOptions env))
  = S (count_occ ascii_dec (list_ascii_of_string listed) ","%char).
Proof.
  intro Hset. cbn [origin corsOptions]. rewrite Hset. cbn [option_map].
  split; [apply concat_split|].
  split; [apply split_pieces_without_sep|apply length_split].
Qed.

Lemma origins_witness :
  widget_env "ALLOWED_ORIGINS"
  = Some "https://app.example, https://admin.example" /\
  origin (corsOptions widget_env)
  = ["https://app.example"; " https://admin.example"] /\
  String.concat "," (origin (corsOptions widget_env))
  = "https://app.example, https://admin.example".
Proof.
  assert (H : widget_env "ALLOWED_ORIGINS"
              = Some "https://app.example, https://admin.example")
    by reflexivity.
  split; [exact H|]. split; [reflexivity|].
  apply (origins_are_the_comma_separated_pieces widget_env _ H).
Defined.

(** ** The whole route *)

Lemma authenticateApiKey_next (env : ProcessEnv) (req req' : Incoming) :
  authenticateApiKey env req = Next req' ->
  req' = req /\
  exists k, k <> "" /\ req_get req "X-API-Key" = Some k /\
            env "API_KEY" = Some k.
Proof.
  intro H.
  destruct (authenticateApiKey_cases env req) as [[Hn Hk]|[Hr _]].
  - rewrite Hn in H. injection H as <-. split; [reflexivity|exact Hk].
  - rewrite Hr in H. discriminate.
Qed.

(** X15: a [POST /api/product-scraper] makes the handler call a
    collaborator only when [API_KEY] is configured and not empty, the
    request that [helmet] handed to the API-key middleware carried that key,
    and the request that the rate limiter handed to the handler had a truthy
    [url]. *)
Theorem collaborators_need_key_and_url
        {S : Type} (L : Library S) (env : ProcessEnv) (W : World)
        (sched : list nat) (st : S) (req : Incoming) :
  calls (fst (serve L env W sched st req)) <> [] ->
  exists k checked st3 routed st5,
    passes (firstn 3 (stack L env)) st req = Some (checked, st3) /\
    passes (stack L env) st req = Some (routed, st5) /\
    k <> "" /\
    env "API_KEY" = Some k /\
    req_get checked "X-API-Key" = Some k /\
    truthy (get "url" (body (request routed))) = true.
Proof.
  unfold serve, stack. cbn [through passes firstn].
  destruct (cors L (corsOptions env) st req) as [[req1|r] st1];
    [|intro H; now contradiction H].
  destruct (express_json L st1 req1) as [[req2|r] st2];
    [|intro H; now contradiction H].
  destruct (helmet L st2 req2) as [[req3|r] st3];
    [|intro H; now contradiction H].
  unfold stateless.
  destruct (authenticateApiKey env req3) as [req4|r] eqn:Hauth;
    [|intro H; now contradiction H].
  apply authenticateApiKey_next in Hauth.
  destruct Hauth as (-> & k & Hne & Hk & He).
  destruct (rateLimit L limiter_options st3 req3) as [[req5|r] st5];
    [|intro H; now contradiction H].
  cbn [fst]. intro Hcalls.
  exists k, req3, st3, req5, st5.
  split; [reflexivity|]. split; [reflexivity|].
  split; [exact Hne|]. split; [exact He|]. split; [exact Hk|].
  destruct (run_classified W sched (request req5)) as [[_ Hrun]|[Ht _]];
    [|exact Ht].
  rewrite Hrun in Hcalls. now contradiction Hcalls.
Qed.

Lemma collaborators_need_key_witness :
  calls (fst (serve counting_library widget_env widget_world [] 0
                    (keyed_request (Some "s3cret") widget_request))) <> [] /\
  exists k checked st3 routed st5,
    passes (firstn 3 (stack counting_library widget_env)) 0
           (keyed_request (Some "s3cret") widget_request)
    = Some (checked, st3) /\
    passes (stack counting_library widget_env) 0
           (keyed_request (Some "s3cret") widget_request)
    = Some (routed, st5) /\
    k <> "" /\
    widget_env "API_KEY" = Some k /\
    req_get checked "X-API-Key" = Some k /\
    truthy (get "url" (body (request routed))) = true.
Proof.
  assert (H : calls (fst (serve counting_library widget_env widget_world [] 0
                               (keyed_request (Some "s3cret") widget_request)))
              <> []) by (vm_compute; discriminate).
  split; [exact H|].
  exact (collaborators_need_key_and_url counting_library widget_env
           widget_world [] 0 _ H).
Defined.

(** X16: a request that the API-key middleware turns away is answered 401
    before the rate limiter sees it: the state the middleware share is left
    as [helmet] left it, and no collaborator is called. *)
Theorem unauthorized_request_skips_rate_limiter
        {S : Type} (L : Library S) (env : ProcessEnv) (W : World)
        (sched : list nat) (st st3 : S) (req checked : Incoming) :
  passes (firstn 3 (stack L env)) st req = Some (checked, st3) ->
  authenticateApiKey env checked <> Next checked ->
  serve L env W sched st req
  = ([EvSend {| status := 401; json := unauthorized |}], st3) /\
  calls (fst (serve L env W sched st req)) = [].
Proof.
  unfold serve, stack. cbn [through passes firstn].
  destruct (cors L (corsOptions env) st req) as [[req1|r] st1];
    [|discriminate].
  destruct (express_json L st1 req1) as [[req2|r] st2]; [|discriminate].
  destruct (helmet L st2 req2) as [[req3|r] st3']; [|discriminate].
  intros [= -> ->] Hauth. unfold stateless.
  destruct (authenticateApiKey_cases env checked) as [[Hn _]|[Hr _]];
    [contradiction|].
  rewrite Hr. split; reflexivity.
Qed.

Lemma unauthorized_request_witness :
  (passes (firstn 3 (stack counting_library widget_env)) 0
          (keyed_request (Some "guess") widget_request)
   = Some (keyed_request (Some "guess") widget_request, 0) /\
   authenticateApiKey widget_env (keyed_request (Some "guess") widget_request)
   <> Next (keyed_request (Some "guess") widget_request)) /\
  serve counting_library widget_env widget_world [] 0
        (keyed_request (Some "guess") widget_request)
  = ([EvSend {| status := 401; json := unauthorized |}], 0).
Proof.
  assert (P : passes (firstn 3 (stack counting_library widget_env)) 0
                     (keyed_request (Some "guess") widget_request)
              = Some (keyed_request (Some "guess") widget_request, 0))
    by reflexivity.
  assert (A : authenticateApiKey widget_env
                (keyed_request (Some "guess") widget_request)
              <> Next (keyed_request (Some "guess") widget_request))
    by (vm_compute; discriminate).
  split; [split; assumption|].
  apply (unauthorized_request_skips_rate_limiter counting_library widget_env
           widget_world [] 0 0 _ _ P A).
Defined.

(** X17: every [POST /api/product-scraper] is answered exactly once,
    whichever middleware or the handler gives the answer. *)
Theorem every_post_answered_once
        {S : Type} (L : Library S) (env : ProcessEnv) (W : World)
        (sched : list nat) (st : S) (req : Incoming) :
  length (responses (fst (serve L env W sched st req))) = 1.
Proof.
  unfold serve. revert st req.
  induction (stack L env) as [|mw mws IH]; intros st req; cbn [through].
  - cbn [fst].
    destruct (run_classified W sched (request req))
      as [[_ ->]|[_ (rest & -> & [[e He]|[record Hr]])]]; cbn [responses];
      [reflexivity|now rewrite He|now rewrite Hr].
  - destruct (mw st req) as [[req'|r] st']; [apply IH|reflexivity].
Qed.
